(** * dask-gateway: job-queue cluster managers

    A shallow embedding of
      - [dask_gateway_server/managers/jobqueue/base.py]  (JobQueueClusterManager)
      - [dask_gateway_server/managers/jobqueue/slurm.py] (SlurmClusterManager)
      - the staged-start test managers of [tests/test_gateway.py]
      - the mock gateway, the token check and the waiting loops of
        [tests/utils.py]
    together with the properties the specification states about them.

    Conventions.
      - Python [str] values are Rocq strings, one character per code point
        below U+0100; the white-space and line-boundary tables of
        [str.split], [str.strip] and [str.splitlines] are those of CPython
        restricted to that range.
      - Python [int] is [Z].
      - Values whose type the code does not fix (what [json.loads] returns,
        the opaque cluster state) are [pyval]s.
      - A raised exception is a value of [exn]; fallible pure code returns
        [res A = exn + A]; coroutines and async generators are trees of
        type [prog]. *)

From Stdlib Require Import ZArith List String Ascii Bool Lia Arith.
From Stdlib Require Import Numbers.DecimalString.
Import ListNotations.

Local Open Scope string_scope.
Local Open Scope Z_scope.

(* ===================================================================== *)
(** ** Python values and exceptions *)
(* ===================================================================== *)

Module Py.

(** JSON-shaped Python values (numbers are integers). *)
#[warnings="-register-all"] Inductive pyval : Type :=
| VNone
| VBool (b : bool)
| VInt (z : Z)
| VStr (s : string)
| VList (l : list pyval)
| VDict (d : list (string * pyval)).

Inductive exc_class : Type :=
| Exception | ValueError | TypeError | KeyError | AttributeError
| OverflowError | JSONDecodeError | UnicodeDecodeError | InvalidStateError
| OSError.

(** [exn_arg] is the argument of an explicit [raise Cls(arg)]; it is [None]
    for errors raised by the interpreter or a library, whose message is not
    modelled. *)
Record exn : Type := mk_exn { exn_class : exc_class; exn_arg : option pyval }.

Definition builtin_error (c : exc_class) : exn := mk_exn c None.
Definition raised (c : exc_class) (arg : pyval) : exn := mk_exn c (Some arg).

Definition res (A : Type) : Type := (exn + A)%type.

(** The opaque state of a cluster or worker: a dict in insertion order. *)
Definition state : Type := list (string * pyval).

Definition ok {A} (a : A) : res A := inr a.
Definition err {A} (e : exn) : res A := inl e.

Definition res_bind {A B} (m : res A) (f : A -> res B) : res B :=
  match m with
  | inl e => inl e
  | inr a => f a
  end.

(** [bool(v)] *)
Definition truthy (v : pyval) : bool :=
  match v with
  | VNone => false
  | VBool b => b
  | VInt z => negb (z =? 0)
  | VStr s => negb (String.eqb s "")
  | VList l => match l with [] => false | _ => true end
  | VDict d => match d with [] => false | _ => true end
  end.

(** [v != 0] *)
Definition ne_zero (v : pyval) : bool :=
  match v with
  | VInt z => negb (z =? 0)
  | VBool b => b
  | _ => true
  end.

(** [str(n)] and ["%d" % n] for an int. *)
Definition str_of_Z (n : Z) : string := NilZero.string_of_int (Z.to_int n).

(** [d.get(key)] / [d[key]] on a dict kept in insertion order. *)
Fixpoint dict_get {V} (d : list (string * V)) (key : string) : option V :=
  match d with
  | [] => None
  | (k, v) :: d' => if String.eqb k key then Some v else dict_get d' key
  end.

(** [d[key] = v]: an existing key keeps its place, a new key goes last. *)
Fixpoint dict_set {V} (d : list (string * V)) (key : string) (v : V)
  : list (string * V) :=
  match d with
  | [] => [(key, v)]
  | (k, v0) :: d' =>
      if String.eqb k key then (k, v) :: d' else (k, v0) :: dict_set d' key v
  end.

(** [d.pop(key, None)]: the dict without [key]. *)
Fixpoint dict_remove {V} (d : list (string * V)) (key : string)
  : list (string * V) :=
  match d with
  | [] => []
  | (k, v) :: d' =>
      if String.eqb k key then d' else (k, v) :: dict_remove d' key
  end.

(** [l.append(x)] and [l.extend(xs)] *)
Definition append {A} (l : list A) (x : A) : list A := (l ++ [x])%list.
Definition extend {A} (l xs : list A) : list A := (l ++ xs)%list.

Definition dict_keys {V} (d : list (string * V)) : list string := map fst d.

(** [result[key]] on an arbitrary value: only a dict can be indexed by a
    string. *)
Definition getitem (v : pyval) (key : string) : res pyval :=
  match v with
  | VDict d =>
      match dict_get d key with
      | Some x => ok x
      | None => err (raised KeyError (VStr key))
      end
  | _ => err (builtin_error TypeError)
  end.

End Py.
Import Py.

Declare Scope res_scope.
Delimit Scope res_scope with res.
Notation "x <- m ;; k" := (res_bind m (fun x => k))
  (at level 61, m at next level, right associativity) : res_scope.

(* ===================================================================== *)
(** ** Text *)
(* ===================================================================== *)

Module Text.

Definition chr (n : nat) : ascii := ascii_of_nat n.
Definition LF : ascii := chr 10.
Definition CR : ascii := chr 13.
Definition nl : string := String LF "".

(** [c.isspace()] for a code point below U+0100. *)
Definition is_space (c : ascii) : bool :=
  let n := nat_of_ascii c in
  (((9 <=? n) && (n <=? 13)) || ((28 <=? n) && (n <=? 32))
   || (n =? 133) || (n =? 160))%nat.

(** Line boundaries of [str.splitlines] below U+0100. *)
Definition is_linebreak (c : ascii) : bool :=
  let n := nat_of_ascii c in
  (((10 <=? n) && (n <=? 13)) || ((28 <=? n) && (n <=? 30)) || (n =? 133))%nat.

Definition snoc (s : string) (c : ascii) : string := s ++ String c "".

(** [s.splitlines()] with [cur] the line read so far. *)
Fixpoint splitlines_from (s cur : string) : list string :=
  match s with
  | "" => if String.eqb cur "" then [] else [cur]
  | String c rest =>
      if is_linebreak c then
        match rest with
        | String c' rest' =>
            if Ascii.eqb c CR && Ascii.eqb c' LF
            then cur :: splitlines_from rest' ""
            else cur :: splitlines_from rest ""
        | "" => cur :: splitlines_from rest ""
        end
      else splitlines_from rest (snoc cur c)
  end.

Definition splitlines (s : string) : list string := splitlines_from s "".

(** [s.split()] with [cur] the word read so far. *)
Fixpoint split_from (s cur : string) : list string :=
  match s with
  | "" => if String.eqb cur "" then [] else [cur]
  | String c rest =>
      if is_space c then
        if String.eqb cur "" then split_from rest ""
        else cur :: split_from rest ""
      else split_from rest (snoc cur c)
  end.

Definition split (s : string) : list string := split_from s "".

Fixpoint lstrip (s : string) : string :=
  match s with
  | String c rest => if is_space c then lstrip rest else s
  | "" => ""
  end.

Fixpoint rstrip (s : string) : string :=
  match s with
  | "" => ""
  | String c rest =>
      let r := rstrip rest in
      if String.eqb r "" && is_space c then "" else String c r
  end.

(** [s.strip()] *)
Definition strip (s : string) : string := rstrip (lstrip s).

(** [sep.join(parts)] *)
Fixpoint join (sep : string) (parts : list string) : string :=
  match parts with
  | [] => ""
  | [p] => p
  | p :: ps => p ++ sep ++ join sep ps
  end.

(** [needle in hay] *)
Fixpoint contains (needle hay : string) : bool :=
  String.prefix needle hay ||
  match hay with
  | "" => false
  | String _ rest => contains needle rest
  end.

(** [list(s)]: the one-character strings of [s], as [list.extend(s)] adds
    them. *)
Fixpoint chars (s : string) : list string :=
  match s with
  | "" => []
  | String c rest => String c "" :: chars rest
  end.

Fixpoint insert_sorted (x : string) (l : list string) : list string :=
  match l with
  | [] => [x]
  | y :: l' => if String.leb x y then x :: l else y :: insert_sorted x l'
  end.

(** [sorted(l)] for strings. *)
Definition sorted (l : list string) : list string :=
  fold_right insert_sorted [] l.

(** [os.path.join(a, b)] on POSIX. *)
Definition ends_with_slash (a : string) : bool :=
  match String.get (String.length a - 1) a with
  | Some c => Ascii.eqb c "/"%char
  | None => false
  end.

Definition path_join (a b : string) : string :=
  if String.prefix "/" b then b
  else if String.eqb a "" || ends_with_slash a then a ++ b
  else a ++ "/" ++ b.

End Text.

(* ===================================================================== *)
(** ** Configuration and platform *)
(* ===================================================================== *)

(** The configurable traits of the manager classes. [worker_cores],
    [worker_memory], [scheduler_cores], [scheduler_memory], [worker_cmd] and
    [scheduler_cmd] are inherited from the base [ClusterManager]. *)
Record config : Type := {
  worker_setup : string;
  scheduler_setup : string;
  staging_directory : string;
  dask_gateway_jobqueue_launcher : string;
  submit_command : string;
  cancel_command : string;
  status_command : string;
  partition : string;
  qos : string;
  account : string;
  worker_cores : Z;
  worker_memory : Z;
  scheduler_cores : Z;
  scheduler_memory : Z;
  worker_cmd : string;
  scheduler_cmd : string
}.

Record cluster_info : Type := {
  username : string;
  cluster_name : string;
  tls_key : string;
  tls_cert : string
}.

(** What the code takes from outside this repository's job-queue modules:
    library functions and the base class's [get_env]. *)
Class Platform : Type := {
  (** [pwd.getpwnam(name).pw_dir]; [None] when the lookup raises [KeyError] *)
  getpwnam_dir : string -> option string;
  (** [template.format(home=..., username=...)] *)
  str_format : string -> string -> string -> res string;
  (** [json.loads]; [None] when it raises [JSONDecodeError] *)
  json_loads : string -> option pyval;
  (** [json.dumps] *)
  json_dumps : pyval -> string;
  (** [str(v)] of a value that is not a [str] *)
  py_repr : pyval -> string;
  (** [bytes.decode("utf8")] of the TLS material *)
  utf8_decode : string -> res string;
  (** [ClusterManager.get_env(cluster_info)] *)
  get_env : cluster_info -> list (string * string)
}.

(** [str(v)] *)
Definition py_str `{Platform} (v : pyval) : string :=
  match v with
  | VStr s => s
  | _ => py_repr v
  end.

(** [JobQueueClusterManager.get_staging_directory] *)
Definition get_staging_directory `{Platform} (cfg : config) (info : cluster_info)
  : res string :=
  match getpwnam_dir (username info) with
  | None => err (raised KeyError (VStr (username info)))
  | Some home =>
      (staging_dir <- str_format (staging_directory cfg) home (username info) ;;
       ok (Text.path_join staging_dir (cluster_name info)))%res
  end.

(** [JobQueueClusterManager.get_worker_args] *)
Definition get_worker_args (cfg : config) : list string :=
  ["--nthreads"; str_of_Z (worker_cores cfg);
   "--memory-limit"; str_of_Z (worker_memory cfg)].

(** The [worker_command] and [scheduler_command] properties. *)
Definition worker_command (cfg : config) : string :=
  Text.join " " (worker_cmd cfg :: get_worker_args cfg).

Definition scheduler_command (cfg : config) : string := scheduler_cmd cfg.

(** [if worker_name:] for an optional name. *)
Definition name_given (worker_name : option string) : option string :=
  match worker_name with
  | Some w => if String.eqb w "" then None else Some w
  | None => None
  end.

(* ===================================================================== *)
(** ** slurm.py: pure functions *)
(* ===================================================================== *)

Module Slurm.
Import Text.

(** [n / 2**k] for ints is a float: the exact quotient rounded to 53
    significant bits, ties to even. [round53 n] is the numerator after
    rounding, so the float is [round53 n / 2^k]. *)
Definition round53 (n : Z) : Z :=
  let bits := Z.log2 n + 1 in
  if bits <=? 53 then n
  else
    let sh := bits - 53 in
    let q := Z.shiftr n sh in
    let r := Z.land n (Z.ones sh) in
    let half := Z.shiftl 1 (sh - 1) in
    let q' := if (half <? r) || ((r =? half) && Z.odd q) then q + 1 else q in
    Z.shiftl q' sh.

(** [math.ceil(n / 2**k)] for [n > 0]; the division raises [OverflowError]
    when the quotient does not fit a double. *)
Definition ceil_truediv_pow2 (n k : Z) : res Z :=
  let m := round53 n in
  if 2 ^ (1024 + k) <=? m then err (builtin_error OverflowError)
  else ok ((m + 2 ^ k - 1) / 2 ^ k).

Definition slurm_format_memory (n : Z) : res string :=
  if 10 * 1024 ^ 3 <=? n then
    (c <- ceil_truediv_pow2 n 30 ;; ok (str_of_Z c ++ "G"))%res
  else if 10 * 1024 ^ 2 <=? n then
    (c <- ceil_truediv_pow2 n 20 ;; ok (str_of_Z c ++ "M"))%res
  else if 10 * 1024 <=? n then
    (c <- ceil_truediv_pow2 n 10 ;; ok (str_of_Z c ++ "K"))%res
  else ok "1K".

(** [SlurmClusterManager.get_submit_cmd_env_stdin]. The attribute
    [cmd.account] does not exist on a list, and [cmd.extend] of a string
    adds its characters one by one. *)
Definition get_submit_cmd_env_stdin `{Platform} (cfg : config)
    (info : cluster_info) (worker_name : option string)
  : res (list string * list (string * string) * string) :=
  let env := get_env info in
  let cmd := [submit_command cfg; "--parsable"] in
  let cmd := append cmd "--job-name=dask-gateway" in
  let cmd := if negb (String.eqb (partition cfg) "")
             then append cmd ("--partition=" ++ partition cfg) else cmd in
  (cmd <- (if negb (String.eqb (account cfg) "")
           then err (builtin_error AttributeError) else ok cmd) ;;
   let cmd := if negb (String.eqb (qos cfg) "")
              then extend cmd (chars ("--qos=" ++ qos cfg)) else cmd in
   job <- match name_given worker_name with
          | Some w =>
              let env := dict_set env "DASK_GATEWAY_WORKER_NAME" w in
              (mem <- slurm_format_memory (worker_memory cfg) ;;
               ok (env, worker_cores cfg, mem, "dask-worker-" ++ w ++ ".log",
                   join nl ["#!/bin/sh"; worker_setup cfg; worker_command cfg]))
          | None =>
              (mem <- slurm_format_memory (scheduler_memory cfg) ;;
               ok (env, scheduler_cores cfg, mem,
                   "dask-scheduler-" ++ cluster_name info ++ ".log",
                   join nl ["#!/bin/sh"; scheduler_setup cfg;
                            scheduler_command cfg]))
          end ;;
   let '(env, cpus, mem, log_file, script) := job in
   staging_dir <- get_staging_directory cfg info ;;
   let cmd := extend cmd ["--chdir=" ++ staging_dir;
                          "--output=" ++ path_join staging_dir log_file;
                          "--cpus-per-task=" ++ str_of_Z cpus;
                          "--mem=" ++ mem;
                          "--export=" ++ join "," (sorted (dict_keys env))] in
   ok (cmd, env, script))%res.

(** [state in (a, b)] *)
Definition in2 (state a b : string) : bool :=
  String.eqb state a || String.eqb state b.

(** The loop of [parse_job_states] over the remaining lines, with the two
    lists built so far. *)
Fixpoint parse_lines (ls running failed : list string)
  : res (list string * list string) :=
  match ls with
  | [] => ok (running, failed)
  | l :: ls' =>
      match split l with
      | [job_id; state] =>
          if in2 state "R" "CG" then parse_lines ls' (append running job_id) failed
          else if negb (in2 state "PD" "CF")
               then parse_lines ls' running (append failed job_id)
               else parse_lines ls' running failed
      | _ => err (builtin_error ValueError)
      end
  end.

Definition parse_job_states (stdout : string)
  : res (list string * list string) :=
  parse_lines (splitlines stdout) [] [].

Definition get_stop_cmd_env (cfg : config) (job_id : pyval)
  : list pyval * list (string * string) :=
  ([VStr (cancel_command cfg); job_id], []).

Definition get_status_cmd_env (cfg : config) (job_ids : list string)
  : list string * list (string * string) :=
  ([status_command cfg; "-h"; "--job=" ++ join "," job_ids; "-o"; "%i %t"], []).

(** [stdout.strip()] *)
Definition parse_job_id (stdout : pyval) : res string :=
  match stdout with
  | VStr s => ok (strip s)
  | _ => err (builtin_error AttributeError)
  end.

End Slurm.

(* ===================================================================== *)
(** ** Coroutines and async generators *)
(* ===================================================================== *)

Module Async.

(** One [asyncio.create_subprocess_exec] with its argument vector, its
    environment and what is written to its standard input, followed by
    [communicate]. *)
Record request : Type := {
  argv : list string;
  environ : list (string * string);
  stdin : option string
}.

(** What a finished subprocess leaves: its return code and its two output
    streams, decoded with [decode("utf8", "replace")]. *)
Record proc_out : Type := {
  returncode : Z;
  stdout : string;
  stderr : string
}.

(** A future of the event loop, by identity. *)
Definition fut : Type := nat.

(** The state a program runs on tells which futures have a result. *)
Class Futures (S : Type) : Type := fut_result : S -> fut -> option bool.

(** A coroutine or async generator over attributes of type [S]:
    - [Get]/[Put] read and write the object's attributes;
    - [Exec] awaits a subprocess;
    - [Yield] hands a state snapshot to whoever drains the generator;
    - [Await] awaits a future;
    - [Sleep] is [await asyncio.sleep(...)]. *)
Inductive prog (S A : Type) : Type :=
| Ret (a : A)
| Throw (e : exn)
| Get (k : S -> prog S A)
| Put (s : S) (k : prog S A)
| Exec (r : request) (k : proc_out -> prog S A)
| Yield (v : state) (k : prog S A)
| Await (f : fut) (k : bool -> prog S A)
| Sleep (k : prog S A).

Arguments Ret {S A} a.
Arguments Throw {S A} e.
Arguments Get {S A} k.
Arguments Put {S A} s k.
Arguments Exec {S A} r k.
Arguments Yield {S A} v k.
Arguments Await {S A} f k.
Arguments Sleep {S A} k.

Fixpoint bind {S A B} (p : prog S A) (f : A -> prog S B) : prog S B :=
  match p with
  | Ret a => f a
  | Throw e => Throw e
  | Get k => Get (fun s => bind (k s) f)
  | Put s k => Put s (bind k f)
  | Exec r k => Exec r (fun o => bind (k o) f)
  | Yield v k => Yield v (bind k f)
  | Await x k => Await x (fun b => bind (k b) f)
  | Sleep k => Sleep (bind k f)
  end.

(** A fallible pure computation inside a coroutine. *)
Definition lift {S A} (r : res A) : prog S A :=
  match r with
  | inl e => Throw e
  | inr a => Ret a
  end.

(** Where a program stands when it gives control back. *)
Inductive outcome (S A : Type) : Type :=
| Done (a : A)
| Failed (e : exn)
| OnProc (r : request) (k : proc_out -> prog S A)
| Yielded (v : state) (k : prog S A)
| OnFuture (f : fut) (k : bool -> prog S A)
| Sleeping (k : prog S A).

Arguments Done {S A} a.
Arguments Failed {S A} e.
Arguments OnProc {S A} r k.
Arguments Yielded {S A} v k.
Arguments OnFuture {S A} f k.
Arguments Sleeping {S A} k.

(** Run a program up to its next suspension point. Awaiting a future that
    already has a result does not suspend. *)
Fixpoint step {S A} `{Futures S} (p : prog S A) (s : S) : outcome S A * S :=
  match p with
  | Ret a => (Done a, s)
  | Throw e => (Failed e, s)
  | Get k => step (k s) s
  | Put s' k => step k s'
  | Exec r k => (OnProc r k, s)
  | Yield v k => (Yielded v k, s)
  | Await f k =>
      match fut_result s f with
      | Some b => step (k b) s
      | None => (OnFuture f k, s)
      end
  | Sleep k => (Sleeping k, s)
  end.

(** The subprocesses of a run: what each request answers, given the requests
    made before it. [inl e] is an error raised when the process cannot be
    started. *)
Definition oracle : Type := list request -> request -> res proc_out.

(** The attributes together with the subprocess requests made so far. *)
Record world (S : Type) : Type := mk_world {
  attrs : S;
  trace : list request
}.

Arguments mk_world {S} attrs trace.
Arguments attrs {S} w.
Arguments trace {S} w.

(** Run a program with nothing else scheduled in between: subprocesses are
    answered by the oracle; the run stops at a yield, at a future without a
    result, or at a sleep. *)
Fixpoint run {S A} `{Futures S} (o : oracle) (p : prog S A) (w : world S)
  : outcome S A * world S :=
  match p with
  | Ret a => (Done a, w)
  | Throw e => (Failed e, w)
  | Get k => run o (k (attrs w)) w
  | Put s' k => run o k (mk_world s' (trace w))
  | Exec r k =>
      let w' := mk_world (attrs w) (append (trace w) r) in
      match o (trace w) r with
      | inl e => (Failed e, w')
      | inr out => run o (k out) w'
      end
  | Yield v k => (Yielded v k, w)
  | Await f k =>
      match fut_result (attrs w) f with
      | Some b => run o (k b) w
      | None => (OnFuture f k, w)
      end
  | Sleep k => (Sleeping k, w)
  end.

End Async.
Import Async.

Declare Scope prog_scope.
Delimit Scope prog_scope with prog.
Notation "x <- m ;; k" := (bind m (fun x => k))
  (at level 61, m at next level, right associativity) : prog_scope.
Notation "' pat <- m ;; k" := (bind m (fun x => match x with pat => k end))
  (at level 61, pat pattern, m at next level, right associativity) : prog_scope.
Notation "m ;; k" := (bind m (fun _ => k))
  (at level 61, right associativity) : prog_scope.

(* ===================================================================== *)
(** ** base.py: JobQueueClusterManager *)
(* ===================================================================== *)

Module JobQueue.
Import Text.

(** The methods a concrete manager overrides. *)
Class Backend : Type := {
  get_submit_cmd_env_stdin :
    config -> cluster_info -> option string ->
    res (list string * list (string * string) * string);
  get_stop_cmd_env : config -> pyval -> list pyval * list (string * string);
  get_status_cmd_env :
    config -> list string -> list string * list (string * string);
  parse_job_id : pyval -> res string;
  parse_job_states : string -> res (list string * list string)
}.

(** The attributes [is_job_running] and [job_state_tracker] work on, and the
    futures of the event loop.
    - [jobs_to_track]: the [WeakValueDictionary] from job id to future, in
      insertion order;
    - [job_tracker]: the polling task, once [hasattr(self, "job_tracker")];
    - [background_tasks]: how many tasks were handed to
      [task_pool.create_background_task];
    - [next_fut]: the identity the next [loop.create_future()] gets;
    - [results]: the futures on which [set_result] was called.
    Cancelling a future is not modelled. *)
Record jq_state : Type := mk_jq {
  jobs_to_track : list (string * fut);
  job_tracker : option nat;
  background_tasks : nat;
  next_fut : fut;
  results : list (fut * bool)
}.

Definition initial : jq_state := mk_jq [] None 0%nat 0%nat [].

Fixpoint result_of (rs : list (fut * bool)) (f : fut) : option bool :=
  match rs with
  | [] => None
  | (g, b) :: rs' => if Nat.eqb g f then Some b else result_of rs' f
  end.

#[global] Instance jq_futures : Futures jq_state :=
  fun s f => result_of (results s) f.

Definition with_jobs (s : jq_state) (jobs : list (string * fut)) : jq_state :=
  mk_jq jobs (job_tracker s) (background_tasks s) (next_fut s) (results s).

(** [is_job_running]: the first call creates the dictionary and the polling
    task; a job id without an entry gets a new future. *)
Definition is_job_running (job_id : string) (s : jq_state) : fut * jq_state :=
  let s :=
    match job_tracker s with
    | Some _ => s
    | None =>
        mk_jq [] (Some (background_tasks s)) (S (background_tasks s))
              (next_fut s) (results s)
    end in
  match dict_get (jobs_to_track s) job_id with
  | None =>
      let f := next_fut s in
      (f, mk_jq (dict_set (jobs_to_track s) job_id f) (job_tracker s)
                (background_tasks s) (S f) (results s))
  | Some f => (f, s)
  end.

(** A synchronous method called from a coroutine. *)
Definition call {S A} (m : S -> A * S) : prog S A :=
  Get (fun s => let '(a, s') := m s in Put s' (Ret a)).

(** [fut.set_result(b)] *)
Definition set_result (f : fut) (b : bool) : prog jq_state unit :=
  Get (fun s =>
    match result_of (results s) f with
    | Some _ => Throw (builtin_error InvalidStateError)
    | None =>
        Put (mk_jq (jobs_to_track s) (job_tracker s) (background_tasks s)
                   (next_fut s) ((f, b) :: results s))
            (Ret tt)
    end).

(** [for job_id in ids: fut = self.jobs_to_track.pop(job_id, None); if fut:
    fut.set_result(b)] *)
Fixpoint resolve_all (b : bool) (ids : list string) : prog jq_state unit :=
  match ids with
  | [] => Ret tt
  | job_id :: rest =>
      Get (fun s =>
        match dict_get (jobs_to_track s) job_id with
        | Some f =>
            Put (with_jobs s (dict_remove (jobs_to_track s) job_id))
                (set_result f b ;; resolve_all b rest)%prog
        | None => resolve_all b rest
        end)
  end.

Section Manager.
Context `{Platform} `{Backend}.
Variable cfg : config.

(** What [job_state_tracker] does with the output of the status command:
    parse it, then resolve the futures of the running and of the failed
    jobs. *)
Definition resolve_verdicts (out : string) : prog jq_state unit :=
  ('(running, failed) <- lift (parse_job_states out) ;;
   resolve_all true running ;;
   resolve_all false failed)%prog.

Definition status_request (s : jq_state) : request :=
  let '(cmd, env) := get_status_cmd_env cfg (dict_keys (jobs_to_track s)) in
  {| argv := cmd; environ := env; stdin := None |}.

(** The body of the [while True] loop of [job_state_tracker]; the calls to
    the logger are left out. *)
Definition job_state_tracker_body : prog jq_state unit :=
  (Get (fun s =>
     match jobs_to_track s with
     | [] => Ret tt
     | _ :: _ => Exec (status_request s) (fun p => resolve_verdicts (stdout p))
     end) ;;
   Sleep (Ret tt))%prog.

(** ["%d" % v] *)
Definition format_d (v : pyval) : res string :=
  match v with
  | VInt z => ok (str_of_Z z)
  | VBool b => ok (if b then "1" else "0")
  | _ => err (builtin_error TypeError)
  end.

(** [needle in v] *)
Definition py_contains (needle : string) (v : pyval) : res bool :=
  match v with
  | VStr s => ok (contains needle s)
  | VList l =>
      ok (existsb (fun x => match x with
                            | VStr s => String.eqb s needle
                            | _ => false
                            end) l)
  | VDict d => ok (match dict_get d needle with Some _ => true | None => false end)
  | _ => err (builtin_error TypeError)
  end.

Definition launcher_error (code : Z) (out errout : string) : string :=
  "Error running `dask-gateway-jobqueue-launcher`" ++ nl ++
  "  returncode: " ++ str_of_Z code ++ nl ++
  "  stdout: " ++ out ++ nl ++
  "  stderr: " ++ errout.

(** The subprocess [do_as_user] starts: the launcher under [sudo], with an
    empty environment and the JSON request on its standard input. *)
Definition launcher_request (user action : string)
    (kwargs : list (string * pyval)) : request :=
  let cmd := ["sudo"; "-nHu"; user; dask_gateway_jobqueue_launcher cfg] in
  let kwargs := dict_set kwargs "action" (VStr action) in
  {| argv := cmd; environ := []; stdin := Some (json_dumps (VDict kwargs)) |}.

(** [do_as_user(user, action, kwargs)] *)
Definition do_as_user (user action : string) (kwargs : list (string * pyval))
  : prog jq_state (pyval * pyval * pyval) :=
  Exec (launcher_request user action kwargs)
    (fun p =>
       if negb (returncode p =? 0) then
         Throw (raised Exception
                  (VStr (launcher_error (returncode p) (stdout p) (stderr p))))
       else
         match json_loads (stdout p) with
         | None => Throw (builtin_error JSONDecodeError)
         | Some result =>
             lift (is_ok <- getitem result "ok" ;;
                   if negb (truthy is_ok) then
                     (e <- getitem result "error" ;; err (raised Exception e))
                   else
                     (code <- getitem result "returncode" ;;
                      out <- getitem result "stdout" ;;
                      errout <- getitem result "stderr" ;;
                      ok (code, out, errout)))%res
         end).

Definition str_dict (d : list (string * string)) : pyval :=
  VDict (map (fun kv => (fst kv, VStr (snd kv))) d).

Definition submit_error (code out errout : pyval) : res string :=
  (c <- format_d code ;;
   ok ("Failed to submit job to batch system" ++ nl ++
       "  exit_code: " ++ c ++ nl ++
       "  stdout: " ++ py_str out ++ nl ++
       "  stderr: " ++ py_str errout))%res.

(** [start_job(cluster_info, worker_name=None)] *)
Definition start_job (info : cluster_info) (worker_name : option string)
  : prog jq_state string :=
  ('(cmd, env, script) <- lift (get_submit_cmd_env_stdin cfg info worker_name) ;;
   '(staging_dir, files) <-
      lift (match name_given worker_name with
            | None =>
                (staging_dir <- get_staging_directory cfg info ;;
                 key <- utf8_decode (tls_key info) ;;
                 cert <- utf8_decode (tls_cert info) ;;
                 ok (VStr staging_dir,
                     VDict [("dask.pem", VStr key); ("dask.crt", VStr cert)]))%res
            | Some _ => ok (VNone, VNone)
            end) ;;
   '(code, out, errout) <-
      do_as_user (username info) "start"
        [("cmd", VList (map VStr cmd)); ("env", str_dict env);
         ("stdin", VStr script); ("staging_dir", staging_dir);
         ("files", files)] ;;
   if ne_zero code then
     lift (msg <- submit_error code out errout ;;
           err (raised Exception (VStr msg)))%res
   else lift (parse_job_id out))%prog.

(** [stop_job(cluster_info, job_id, worker_name=None)]. The message of its
    exception has one [%s] for two arguments, so formatting it raises
    [TypeError]. *)
Definition stop_job (info : cluster_info) (job_id : pyval)
    (worker_name : option string) : prog jq_state unit :=
  (let '(cmd, env) := get_stop_cmd_env cfg job_id in
   staging_dir <-
      lift (match name_given worker_name with
            | None => (d <- get_staging_directory cfg info ;; ok (VStr d))%res
            | Some _ => ok VNone
            end) ;;
   '(code, out, errout) <-
      do_as_user (username info) "stop"
        [("cmd", VList cmd); ("env", str_dict env);
         ("staging_dir", staging_dir)] ;;
   if ne_zero code then
     (gone <- lift (py_contains "Job has finished" errout) ;;
      if negb gone then Throw (builtin_error TypeError) else Ret tt)
   else Ret tt)%prog.

Definition job_failed (job_id kind name : string) : exn :=
  raised Exception
    (VStr ("Job " ++ job_id ++ " for " ++ kind ++ " " ++ name ++
           " failed, see logs for more information")).

(** [start_cluster(cluster_info)], an async generator. *)
Definition start_cluster (info : cluster_info) : prog jq_state unit :=
  (job_id <- start_job info None ;;
   Yield [("job_id", VStr job_id)]
     (f <- call (is_job_running job_id) ;;
      Await f (fun running =>
        if negb running
        then Throw (job_failed job_id "cluster" (cluster_name info))
        else Ret tt)))%prog.

(** [stop_cluster(cluster_info, cluster_state)] *)
Definition stop_cluster (info : cluster_info)
    (cluster_state : state) : prog jq_state unit :=
  match dict_get cluster_state "job_id" with
  | None | Some VNone => Ret tt
  | Some job_id => stop_job info job_id None
  end.

(** [start_worker(worker_name, cluster_info, cluster_state)] *)
Definition start_worker (worker_name : string) (info : cluster_info)
    (cluster_state : state) : prog jq_state unit :=
  (job_id <- start_job info (Some worker_name) ;;
   Yield [("job_id", VStr job_id)]
     (f <- call (is_job_running job_id) ;;
      Await f (fun running =>
        if negb running
        then Throw (job_failed job_id "worker" worker_name)
        else Ret tt)))%prog.

(** [stop_worker(worker_name, worker_state, cluster_info, cluster_state)] *)
Definition stop_worker (worker_name : string)
    (worker_state : list (string * pyval)) (info : cluster_info)
    (cluster_state : state) : prog jq_state unit :=
  match dict_get worker_state "job_id" with
  | None | Some VNone => Ret tt
  | Some job_id => stop_job info job_id (Some worker_name)
  end.

End Manager.

End JobQueue.

(** [SlurmClusterManager] as a job-queue manager. *)
#[global] Instance SlurmClusterManager `{Platform} : JobQueue.Backend := {|
  JobQueue.get_submit_cmd_env_stdin := Slurm.get_submit_cmd_env_stdin;
  JobQueue.get_stop_cmd_env := Slurm.get_stop_cmd_env;
  JobQueue.get_status_cmd_env := Slurm.get_status_cmd_env;
  JobQueue.parse_job_id := Slurm.parse_job_id;
  JobQueue.parse_job_states := Slurm.parse_job_states
|}.

(* ===================================================================== *)
(** ** The cluster manager contract and the staged start *)
(* ===================================================================== *)

Module Lifecycle.

(** Modelled from the spec: the cluster manager contract (section 4.3),
    whose base class is not among the sources; these are the two operations
    the staged start uses. *)
Class ClusterManager (S : Type) : Type := {
  start_cluster : cluster_info -> prog S unit;
  stop_cluster : cluster_info -> state -> prog S unit
}.

(** Modelled from the spec: how draining a staged start ended (completed,
    raised, or waiting on a future), with the snapshots seen, oldest
    first. *)
Inductive drained (S : Type) : Type :=
| Completed (seen : list state)
| Raised (e : exn) (seen : list state)
| Pending (seen : list state) (f : fut) (k : bool -> prog S unit).

Arguments Completed {S} seen.
Arguments Raised {S} e seen.
Arguments Pending {S} seen f k.

(** Modelled from the spec: the last-seen state (section 4.3), the empty
    dict as long as no snapshot was yielded. *)
Definition last_state (seen : list state) : state := last seen [].

(** Modelled from the spec: the lifecycle engine's draining of
    [start_cluster] (section 4.6.1, steps 1 and 2), which is not among the
    sources. Each yielded snapshot is recorded before the next stage is
    driven; timers are not modelled, so a sleep just passes. *)
Fixpoint drain {S} `{Futures S} (o : oracle) (p : prog S unit)
    (seen : list state) (w : world S) : drained S * world S :=
  match p with
  | Ret _ => (Completed seen, w)
  | Throw e => (Raised e seen, w)
  | Get k => drain o (k (attrs w)) seen w
  | Put s' k => drain o k seen (mk_world s' (trace w))
  | Exec r k =>
      let w' := mk_world (attrs w) (append (trace w) r) in
      match o (trace w) r with
      | inl e => (Raised e seen, w')
      | inr out => drain o (k out) seen w'
      end
  | Yield v k => drain o k (append seen v) w
  | Await f k =>
      match fut_result (attrs w) f with
      | Some b => drain o (k b) seen w
      | None => (Pending seen f k, w)
      end
  | Sleep k => drain o k seen w
  end.

(** Modelled from the spec: how a cluster start ended for the engine
    (section 4.6.1, steps 3, 4 and 6). *)
Inductive started (S : Type) : Type :=
| Submitted (last : state)
| AwaitingJob (last : state) (f : fut) (k : bool -> prog S unit)
| CleanedUp (e : exn) (last : state) (cleanup : outcome S unit).

Arguments Submitted {S} last.
Arguments AwaitingJob {S} last f k.
Arguments CleanedUp {S} e last cleanup.

(** Modelled from the spec: the failure path of the cluster start (section
    4.6.1, step 6): when the start raises, [stop_cluster] is invoked with the
    last state seen, which is the empty dict before the first snapshot. *)
Definition start_or_cleanup {S} `{Futures S} `{ClusterManager S} (o : oracle)
    (info : cluster_info) (w : world S) : started S * world S :=
  match drain o (start_cluster info) [] w with
  | (Completed seen, w') => (Submitted (last_state seen), w')
  | (Pending seen f k, w') => (AwaitingJob (last_state seen) f k, w')
  | (Raised e seen, w') =>
      let '(r, w'') := run o (stop_cluster info (last_state seen)) w' in
      (CleanedUp e (last_state seen) r, w'')
  end.

End Lifecycle.

(* ===================================================================== *)
(** ** tests/test_gateway.py: FailStartClusterManager *)
(* ===================================================================== *)

Module FailStart.

(** The attributes of [FailStartClusterManager]. *)
Record attrs : Type := mk_attrs {
  fail_stage : Z;
  stop_cluster_state : option state
}.

#[global] Instance no_futures : Futures attrs := fun _ _ => None.

(** The [for i in range(3)] loop of [start_cluster] over the remaining
    values of [i]. *)
Fixpoint stages (todo : list Z) : prog attrs unit :=
  match todo with
  | [] => Ret tt
  | i :: rest =>
      Get (fun self =>
        if i =? fail_stage self
        then Throw (raised ValueError (VStr "Oh No"))
        else Yield [("i", VInt i)] (stages rest))
  end.

Definition start_cluster (info : cluster_info) : prog attrs unit :=
  stages [0; 1; 2].

Definition stop_cluster (info : cluster_info) (cluster_state : state)
  : prog attrs unit :=
  Get (fun self => Put (mk_attrs (fail_stage self) (Some cluster_state)) (Ret tt)).

#[global] Instance manager : Lifecycle.ClusterManager attrs := {|
  Lifecycle.start_cluster := start_cluster;
  Lifecycle.stop_cluster := stop_cluster
|}.

End FailStart.

(* ===================================================================== *)
(** ** A concrete platform for examples *)
(* ===================================================================== *)

Module Example.
Import Text.

Definition quote : string := String (chr 34) "".

(** The launcher's answer for a command that exited with [code]. *)
Definition reply_text (code : Z) (out errout : string) : string :=
  "{" ++ quote ++ "ok" ++ quote ++ ": true, " ++
  quote ++ "returncode" ++ quote ++ ": " ++ str_of_Z code ++ ", " ++
  quote ++ "stdout" ++ quote ++ ": " ++ quote ++ out ++ quote ++ ", " ++
  quote ++ "stderr" ++ quote ++ ": " ++ quote ++ errout ++ quote ++ "}".

Definition reply_value (code : Z) (out errout : string) : pyval :=
  VDict [("ok", VBool true); ("returncode", VInt code);
         ("stdout", VStr out); ("stderr", VStr errout)].

Definition submitted_text : string := reply_text 0 "42" "".
Definition gone_text : string := reply_text 1 "" "scancel: Job has finished".

Definition refused_text : string :=
  "{" ++ quote ++ "ok" ++ quote ++ ": false, " ++
  quote ++ "error" ++ quote ++ ": " ++ quote ++ "no such user" ++ quote ++ "}".

(** One user, the default staging template, and a [json.loads] that knows
    the three answers above. The subprocesses of the examples do not read
    their input, so [json.dumps] is constant; [repr] covers the scalars. *)
#[export] Instance platform : Platform := {|
  getpwnam_dir := fun name =>
    if String.eqb name "alice" then Some "/home/alice" else None;
  str_format := fun template home user =>
    if String.eqb template "{home}/.dask-gateway/"
    then ok (home ++ "/.dask-gateway/")
    else err (builtin_error KeyError);
  json_loads := fun text =>
    if String.eqb text submitted_text then Some (reply_value 0 "42" "")
    else if String.eqb text gone_text
    then Some (reply_value 1 "" "scancel: Job has finished")
    else if String.eqb text refused_text
    then Some (VDict [("ok", VBool false); ("error", VStr "no such user")])
    else None;
  json_dumps := fun _ => "{}";
  py_repr := fun v =>
    match v with
    | VBool b => if b then "True" else "False"
    | VInt z => str_of_Z z
    | _ => "None"
    end;
  utf8_decode := fun b => ok b;
  get_env := fun info => [("DASK_GATEWAY_CLUSTER_NAME", cluster_name info);
                          ("DASK_GATEWAY_API_TOKEN", "token")]
|}.

Definition cfg : config := {|
  worker_setup := "";
  scheduler_setup := "";
  staging_directory := "{home}/.dask-gateway/";
  dask_gateway_jobqueue_launcher := "dask-gateway-jobqueue-launcher";
  submit_command := "sbatch";
  cancel_command := "scancel";
  status_command := "squeue";
  partition := "";
  qos := "";
  account := "";
  worker_cores := 1;
  worker_memory := 2 * 1024 ^ 3;
  scheduler_cores := 1;
  scheduler_memory := 2 * 1024 ^ 3;
  worker_cmd := "dask-gateway-worker";
  scheduler_cmd := "dask-gateway-scheduler"
|}.

Definition with_account_qos (a q : string) : config := {|
  worker_setup := worker_setup cfg;
  scheduler_setup := scheduler_setup cfg;
  staging_directory := staging_directory cfg;
  dask_gateway_jobqueue_launcher := dask_gateway_jobqueue_launcher cfg;
  submit_command := submit_command cfg;
  cancel_command := cancel_command cfg;
  status_command := status_command cfg;
  partition := partition cfg;
  qos := q;
  account := a;
  worker_cores := worker_cores cfg;
  worker_memory := worker_memory cfg;
  scheduler_cores := scheduler_cores cfg;
  scheduler_memory := scheduler_memory cfg;
  worker_cmd := worker_cmd cfg;
  scheduler_cmd := scheduler_cmd cfg
|}.

Definition info : cluster_info := {|
  username := "alice";
  cluster_name := "c1";
  tls_key := "KEY";
  tls_cert := "CERT"
|}.

(** The Slurm manager on this platform. *)
Definition backend : JobQueue.Backend := SlurmClusterManager.

(** Subprocesses that always leave the same output. *)
Definition always (p : proc_out) : oracle := fun _ _ => inr p.

Definition submitted : proc_out :=
  {| returncode := 0; stdout := submitted_text; stderr := "" |}.
Definition gone : proc_out :=
  {| returncode := 0; stdout := gone_text; stderr := "" |}.
Definition refused : proc_out :=
  {| returncode := 0; stdout := refused_text; stderr := "" |}.
Definition crashed : proc_out :=
  {| returncode := 1; stdout := submitted_text; stderr := "sudo: a password is required" |}.

(** A status output that lists job 1 twice. *)
Definition listed_twice : string := "1 R" ++ nl ++ "1 F".

End Example.

(* ===================================================================== *)
(** ** The specification's reading of the memory format *)
(* ===================================================================== *)

Module MemorySpec.

(** The least integer not below [n / d], for [d > 0]. *)
Definition ceil_div (n d : Z) : Z := (n + d - 1) / d.

(** The format as the specification words it: thresholds at ten units,
    ceiling rounding, computed on integers. *)
Definition format_memory (n : Z) : string :=
  if 10 * 2 ^ 30 <=? n then str_of_Z (ceil_div n (2 ^ 30)) ++ "G"
  else if 10 * 2 ^ 20 <=? n then str_of_Z (ceil_div n (2 ^ 20)) ++ "M"
  else if 10 * 2 ^ 10 <=? n then str_of_Z (ceil_div n (2 ^ 10)) ++ "K"
  else "1K".

End MemorySpec.

(* ===================================================================== *)
(** ** The specification's reading of the status output *)
(* ===================================================================== *)

Module StatusSpec.

(** A listed job: its id and its state code. *)
Definition row : Type := (string * string)%type.

Definition fields (r : row) : list string := [fst r; snd r].

(** Every line of the output has exactly the two fields of its row. *)
Definition lists (stdout : string) (rows : list row) : Prop :=
  map Text.split (Text.splitlines stdout) = map fields rows.

Definition running_code (st : string) : bool :=
  String.eqb st "R" || String.eqb st "CG".

Definition pending_code (st : string) : bool :=
  String.eqb st "PD" || String.eqb st "CF".

Definition failed_code (st : string) : bool :=
  negb (running_code st) && negb (pending_code st).

Definition ids_with (code : string -> bool) (rows : list row) : list string :=
  map fst (filter (fun r => code (snd r)) rows).

End StatusSpec.

(* ===================================================================== *)
(** ** The launcher protocol, as the specification words it *)
(* ===================================================================== *)

Module LauncherSpec.

(** The launcher process exited with 0 and answered
    [{ok: true, returncode, stdout, stderr}]. *)
Definition answers `{Platform} (p : proc_out) (code out errout : pyval) : Prop :=
  returncode p = 0 /\
  exists result is_ok,
    json_loads (stdout p) = Some result /\
    getitem result "ok" = ok is_ok /\ truthy is_ok = true /\
    getitem result "returncode" = ok code /\
    getitem result "stdout" = ok out /\
    getitem result "stderr" = ok errout.

(** The launcher process exited with 0 and answered [{ok: false, error}]. *)
Definition refuses `{Platform} (p : proc_out) (error : pyval) : Prop :=
  returncode p = 0 /\
  exists result is_ok,
    json_loads (stdout p) = Some result /\
    getitem result "ok" = ok is_ok /\ truthy is_ok = false /\
    getitem result "error" = ok error.

End LauncherSpec.

(* ===================================================================== *)
(** ** Awaiting the verdict on a job *)
(* ===================================================================== *)

Module VerdictSpec.


End VerdictSpec.

(* ===================================================================== *)
(** ** The states of the pending-interest map *)
(* ===================================================================== *)

Module Tracking.
Import JobQueue.

(** What the manager's attributes satisfy at every suspension point:
    - the map has one entry per job id and one future per entry;
    - every future in the map was created by the loop and has no result;
    - only futures created by the loop have a result;
    - the polling task exists exactly when one background task was created,
      and before it exists the map is empty. *)
Record wf (s : jq_state) : Prop := {
  wf_keys : NoDup (dict_keys (jobs_to_track s));
  wf_distinct : forall id id' f,
      dict_get (jobs_to_track s) id = Some f ->
      dict_get (jobs_to_track s) id' = Some f -> id = id';
  wf_pending : forall id f,
      dict_get (jobs_to_track s) id = Some f ->
      (f < next_fut s)%nat /\ result_of (results s) f = None;
  wf_created : forall f,
      result_of (results s) f <> None -> (f < next_fut s)%nat;
  wf_tracker :
      match job_tracker s with
      | None => background_tasks s = 0%nat /\ jobs_to_track s = []
      | Some _ => background_tasks s = 1%nat
      end
}.

(** The effect of one round of [resolve_all] on a state whose tracked
    futures have no result. *)
Definition resolved_one (b : bool) (s : jq_state) (job_id : string) : jq_state :=
  match dict_get (jobs_to_track s) job_id with
  | Some f =>
      mk_jq (dict_remove (jobs_to_track s) job_id) (job_tracker s)
            (background_tasks s) (next_fut s) ((f, b) :: results s)
  | None => s
  end.

Definition resolved (b : bool) (ids : list string) (s : jq_state) : jq_state :=
  fold_left (resolved_one b) ids s.

(** [job_id in ids] *)
Definition listed (job_id : string) (ids : list string) : bool :=
  existsb (String.eqb job_id) ids.

(** What can happen to the attributes between two suspension points:
    a call of [is_job_running], the polling task handling the output of a
    status command, or the collection of a weakly held entry. Who still
    holds a future is not tracked: any entry may be collected. *)
Inductive transition `{Backend} : jq_state -> jq_state -> Prop :=
| t_call (job_id : string) (s : jq_state) :
    transition s (snd (is_job_running job_id s))
| t_poll (out : string) (s s' : jq_state) (r : outcome jq_state unit) :
    job_tracker s <> None ->
    step (resolve_verdicts out) s = (r, s') ->
    transition s s'
| t_collect (job_id : string) (s : jq_state) :
    transition s (with_jobs s (dict_remove (jobs_to_track s) job_id)).

Inductive reachable `{Backend} : jq_state -> Prop :=
| r_initial : reachable initial
| r_next (s s' : jq_state) : reachable s -> transition s s' -> reachable s'.

End Tracking.


(* ===================================================================== *)
(** ** base.py: the TLS paths *)
(* ===================================================================== *)

(** [JobQueueClusterManager.get_tls_paths] *)
Definition get_tls_paths `{Platform} (cfg : config) (info : cluster_info)
  : res (string * string) :=
  (staging_dir <- get_staging_directory cfg info ;;
   let cert_path := Text.path_join staging_dir "dask.crt" in
   let key_path := Text.path_join staging_dir "dask.pem" in
   ok (cert_path, key_path))%res.

(* ===================================================================== *)
(** ** Shapes of text *)
(* ===================================================================== *)

Module TextSpec.

(** Every character of [s] is white space. *)
Fixpoint all_space (s : string) : bool :=
  match s with
  | "" => true
  | String c rest => Text.is_space c && all_space rest
  end.

(** The line has exactly two white-space separated fields. *)
Definition two_fields (l : string) : Prop :=
  List.length (Text.split l) = 2%nat.

End TextSpec.


(** The memory a Slurm job asks for: the worker's for a named worker, the
    scheduler's otherwise. *)
Definition asked_memory (cfg : config) (worker_name : option string) : Z :=
  match name_given worker_name with
  | Some _ => worker_memory cfg
  | None => scheduler_memory cfg
  end.


(* ===================================================================== *)
(** ** What the launcher is asked *)
(* ===================================================================== *)

Module RequestSpec.

(** The keyword arguments [start_job] hands to [do_as_user]: a cluster job
    comes with its staging directory and the two TLS files, a worker job
    with neither. *)
Definition start_kwargs `{Platform} (cfg : config) (info : cluster_info)
    (worker_name : option string) (cmd : list string)
    (env : list (string * string)) (script : string)
  : res (list (string * pyval)) :=
  match name_given worker_name with
  | None =>
      (staging_dir <- get_staging_directory cfg info ;;
       key <- utf8_decode (tls_key info) ;;
       cert <- utf8_decode (tls_cert info) ;;
       ok [("cmd", VList (map VStr cmd)); ("env", JobQueue.str_dict env);
           ("stdin", VStr script); ("staging_dir", VStr staging_dir);
           ("files", VDict [("dask.pem", VStr key); ("dask.crt", VStr cert)])])%res
  | Some _ =>
      ok [("cmd", VList (map VStr cmd)); ("env", JobQueue.str_dict env);
          ("stdin", VStr script); ("staging_dir", VNone); ("files", VNone)]
  end.


(** A program that has come to its end, with a value or an exception. *)
Definition ended {S A} (r : outcome S A) : Prop :=
  match r with
  | Done _ | Failed _ => True
  | _ => False
  end.

End RequestSpec.


(* ===================================================================== *)
(** ** tests/test_gateway.py: FailWorkerStartClusterManager *)
(* ===================================================================== *)

Module FailWorkerStart.

(** The attributes of [FailWorkerStartClusterManager] the two methods use. *)
Record attrs : Type := mk_attrs {
  fail_stage : Z;
  stop_worker_state : option state
}.

#[global] Instance no_futures : Futures attrs := fun _ _ => None.

(** The [for i in range(3)] loop of [start_worker] over the remaining values
    of [i]; [self.fail_stage] is read anew at every turn. *)
Fixpoint stages (todo : list Z) : prog attrs unit :=
  match todo with
  | [] => Ret tt
  | i :: rest =>
      Get (fun self =>
        if i =? fail_stage self
        then Throw (raised ValueError (VStr "Oh No"))
        else Yield [("i", VInt i)] (stages rest))
  end.

Definition start_worker (worker_name : string) (info : cluster_info)
    (cluster_state : state) : prog attrs unit :=
  stages [0; 1; 2].

Definition stop_worker (worker_name : string) (worker_state : state)
    (info : cluster_info) (cluster_state : state) : prog attrs unit :=
  Get (fun self => Put (mk_attrs (fail_stage self) (Some worker_state)) (Ret tt)).

End FailWorkerStart.

(* ===================================================================== *)
(** ** tests/utils.py *)
(* ===================================================================== *)

Module Utils.

(** [async for state in gen: entity.state = state], as the tests drive
    [start_cluster] and [start_worker]: the state kept is the last one
    yielded; a sleep of the generator just passes; a future without a
    result leaves the loop waiting. *)
Fixpoint consume {S} `{Futures S} (o : oracle) (gen : prog S unit)
    (kept : state) (w : world S) : outcome S unit * state * world S :=
  match gen with
  | Ret a => (Done a, kept, w)
  | Throw e => (Failed e, kept, w)
  | Get k => consume o (k (attrs w)) kept w
  | Put s' k => consume o k kept (mk_world s' (trace w))
  | Exec r k =>
      let w' := mk_world (attrs w) (append (trace w) r) in
      match o (trace w) r with
      | inl e => (Failed e, kept, w')
      | inr out => consume o (k out) kept w'
      end
  | Yield v k => consume o k v w
  | Await f k =>
      match fut_result (attrs w) f with
      | Some b => consume o (k b) kept w
      | None => (OnFuture f k, kept, w)
      end
  | Sleep k => consume o k kept w
  end.

(** The loop of [cluster_is_stopped] and [worker_is_stopped] with [tries]
    turns left: [running i] is what the [i]-th call of [cluster_is_running]
    answers. The result comes with the number of [time.sleep(0.25)] calls
    made. *)
Fixpoint wait_stopped (running : nat -> bool) (i tries : nat) : bool * nat :=
  match tries with
  | O => (false, i)
  | S tries' =>
      if negb (running i) then (true, i)
      else wait_stopped running (S i) tries'
  end.

(** [ClusterManagerTests.cluster_is_stopped]: [for i in range(120)]. *)
Definition cluster_is_stopped (running : nat -> bool) : bool * nat :=
  wait_stopped running 0 120.

(** [auth_header.split(" ", 1)]: the text before and after the first
    space, or [None] when there is no space and the list has one element. *)
Fixpoint split_first_space (s : string) : option (string * string) :=
  match s with
  | "" => None
  | String c rest =>
      if Ascii.eqb c " " then Some ("", rest)
      else match split_first_space rest with
           | Some (a, b) => Some (String c a, b)
           | None => None
           end
  end.

(** How a request handler fails: with one of the exceptions of [exn], or
    with the [AssertionError] of an [assert]. *)
Inductive failure : Type :=
| Raised (e : exn)
| AssertionFailed.

Section MockGateway.

(** [dask_gateway_server.objects.Cluster] is not among the sources; the
    mock gateway stores clusters and reads their API token. *)
Variable cluster : Type.
Variable api_token : cluster -> string.

(** [MockGateway.clusters] *)
Definition clusters : Type := list (string * cluster).

(** [MockGateway.new_cluster], given the name drawn by [uuid4] and the
    cluster built for it: [self.clusters[cluster_name] = cluster]. *)
Definition new_cluster (self : clusters) (cluster_name : string) (c : cluster)
  : cluster * clusters :=
  (c, dict_set self cluster_name c).

(** [MockGateway.get_cluster] *)
Definition get_cluster (self : clusters) (cluster_name : string) : res cluster :=
  match dict_get self cluster_name with
  | Some c => ok c
  | None => err (raised KeyError (VStr cluster_name))
  end.

(** [MockGateway.mark_cluster_stopped]: [del self.clusters[cluster_name]] *)
Definition mark_cluster_stopped (self : clusters) (cluster_name : string)
  : res clusters :=
  match dict_get self cluster_name with
  | Some _ => ok (dict_remove self cluster_name)
  | None => err (raised KeyError (VStr cluster_name))
  end.

(** [BaseHandler.assert_token_matches], with [auth_header] what
    [self.request.headers.get("Authorization")] gives. *)
Definition assert_token_matches (self : clusters) (auth_header : option string)
    (cluster_name : string) : failure + unit :=
  match get_cluster self cluster_name with
  | inl e => inl (Raised e)
  | inr c =>
      match auth_header with
      | None => inl AssertionFailed
      | Some header =>
          if String.eqb header "" then inl AssertionFailed
          else
            match split_first_space header with
            | None => inl (Raised (builtin_error ValueError))
            | Some (auth_type, auth_key) =>
                if negb (String.eqb auth_type "token") then inl AssertionFailed
                else if negb (String.eqb auth_key (api_token c))
                     then inl AssertionFailed
                     else inr tt
            end
      end
  end.

End MockGateway.

End Utils.

(* ===================================================================== *)
(** * Properties *)
(* ===================================================================== *)

(** ** Memory formatting *)

Lemma ceil_div_is_ceiling (n d : Z) :
  0 < d ->
  d * (MemorySpec.ceil_div n d - 1) < n <= d * MemorySpec.ceil_div n d.
Proof.
  intros Hd. unfold MemorySpec.ceil_div.
  pose proof (Z.div_mod (n + d - 1) d ltac:(lia)) as Hdm.
  pose proof (Z.mod_pos_bound (n + d - 1) d Hd) as Hm.
  nia.
Qed.

Lemma round53_exact (n : Z) : 0 <= n <= 2 ^ 53 -> Slurm.round53 n = n.
Proof.
  intros [Hlo Hhi]. unfold Slurm.round53.
  destruct (Z.eq_dec n (2 ^ 53)) as [-> | Hne]; [reflexivity |].
  destruct (Z.eq_dec n 0) as [-> | Hpos]; [reflexivity |].
  assert (Hlog : Z.log2 n < 53) by (apply Z.log2_lt_pow2; lia).
  destruct (Z.leb_spec (Z.log2 n + 1) 53); [reflexivity | lia].
Qed.

Lemma ceil_truediv_exact (n k : Z) :
  0 <= n <= 2 ^ 53 -> 0 <= k <= 30 ->
  Slurm.ceil_truediv_pow2 n k = ok (MemorySpec.ceil_div n (2 ^ k)).
Proof.
  intros Hn Hk. unfold Slurm.ceil_truediv_pow2.
  rewrite (round53_exact n Hn).
  assert (Hbig : 2 ^ 53 < 2 ^ (1024 + k)) by (apply Z.pow_lt_mono_r; lia).
  destruct (Z.leb_spec (2 ^ (1024 + k)) n); [lia | reflexivity].
Qed.

(** C5, as the code has it: for every byte count from 0 up to 2^53,
    [slurm_format_memory] returns the integer ceiling of [n / 2^30] with
    suffix G from ten GiB on, else that of [n / 2^20] with suffix M from ten
    MiB on, else that of [n / 2^10] with suffix K from ten KiB on, and 1K
    below. The quotient is a float, so the result is exact as long as [n]
    fits the 53 bits of a double. *)
Theorem slurm_format_memory_exact (n : Z) :
  0 <= n <= 2 ^ 53 ->
  Slurm.slurm_format_memory n = ok (MemorySpec.format_memory n).
Proof.
  intros Hn. unfold Slurm.slurm_format_memory, MemorySpec.format_memory.
  change (1024 ^ 3) with (2 ^ 30). change (1024 ^ 2) with (2 ^ 20).
  change (10 * 1024) with (10 * 2 ^ 10).
  destruct (10 * 2 ^ 30 <=? n).
  - rewrite (ceil_truediv_exact n 30) by lia. reflexivity.
  - destruct (10 * 2 ^ 20 <=? n).
    + rewrite (ceil_truediv_exact n 20) by lia. reflexivity.
    + destruct (10 * 2 ^ 10 <=? n).
      * rewrite (ceil_truediv_exact n 10) by lia. reflexivity.
      * reflexivity.
Qed.

Lemma slurm_format_memory_exact_witness :
  0 <= 3 * 2 ^ 30 + 1 <= 2 ^ 53 /\
  Slurm.slurm_format_memory (3 * 2 ^ 30 + 1) =
  ok (MemorySpec.format_memory (3 * 2 ^ 30 + 1)).
Proof.
  split; [vm_compute; split; discriminate |].
  apply (slurm_format_memory_exact (3 * 2 ^ 30 + 1)).
  vm_compute; split; discriminate.
Defined.

(** C5, as the claim words it, fails one byte above 2^53: the float quotient
    rounds down to 2^23 before the ceiling is taken. *)
Lemma slurm_format_memory_rounds_down :
  Slurm.slurm_format_memory (2 ^ 53 + 1) = ok "8388608G" /\
  MemorySpec.format_memory (2 ^ 53 + 1) = "8388609G" /\
  Slurm.slurm_format_memory (2 ^ 53 + 1)
    <> ok (MemorySpec.format_memory (2 ^ 53 + 1)).
Proof.
  repeat split; try reflexivity. vm_compute. discriminate.
Qed.

(** ** Status classification *)

Section Classification.
Import StatusSpec.

Lemma parse_lines_rows (rows : list row) :
  forall ls running failed,
    map Text.split ls = map fields rows ->
    Slurm.parse_lines ls running failed =
    ok (running ++ ids_with running_code rows,
        failed ++ ids_with failed_code rows)%list.
Proof.
  induction rows as [| [job_id st] rows IH]; intros ls running failed Hls.
  - destruct ls; [| discriminate]. cbn. now rewrite !app_nil_r.
  - destruct ls as [| l ls]; [discriminate |].
    cbn in Hls. injection Hls as Hl Hrest.
    cbn [Slurm.parse_lines]. rewrite Hl. cbn [fields fst snd].
    unfold ids_with, failed_code. cbn [filter snd].
    change (Slurm.in2 st "R" "CG") with (running_code st).
    change (Slurm.in2 st "PD" "CF") with (pending_code st).
    destruct (running_code st); cbn [negb andb].
    + rewrite (IH ls _ _ Hrest). unfold append, ids_with, failed_code.
      cbn [map fst]. now rewrite <- app_assoc.
    + destruct (pending_code st); cbn [negb].
      * now rewrite (IH ls _ _ Hrest).
      * rewrite (IH ls _ _ Hrest). unfold append, ids_with, failed_code.
        cbn [map fst]. now rewrite <- app_assoc.
Qed.

Lemma in_ids_with (code : string -> bool) (rows : list row) (job_id : string) :
  In job_id (ids_with code rows) <->
  exists st, In (job_id, st) rows /\ code st = true.
Proof.
  unfold ids_with. rewrite in_map_iff. split.
  - intros [[i st] [Hi Hin]]. apply filter_In in Hin as [Hin Hc].
    cbn in Hi, Hc. subst i. now exists st.
  - intros [st [Hin Hc]]. exists (job_id, st). split; [reflexivity |].
    apply filter_In. now split.
Qed.

Lemma listed_once (rows : list row) (job_id st st' : string) :
  NoDup (map fst rows) ->
  In (job_id, st) rows -> In (job_id, st') rows -> st = st'.
Proof.
  induction rows as [| [i s] rows IH]; cbn; intros Hnd H1 H2; [contradiction |].
  inversion Hnd as [| ? ? Hnotin Hnd']; subst.
  destruct H1 as [H1 | H1], H2 as [H2 | H2].
  - congruence.
  - injection H1 as -> ->. exfalso. apply Hnotin.
    apply in_map_iff. now exists (job_id, st').
  - injection H2 as -> ->. exfalso. apply Hnotin.
    apply in_map_iff. now exists (job_id, st).
  - now apply IH.
Qed.

(** C4, as the code has it: when every line of the status output has
    exactly two fields, [parse_job_states] returns the ids of the lines with
    code R or CG as running, in order, and the ids of the lines whose code
    is none of R, CG, PD, CF as failed; a line with PD or CF adds to neither
    list. When no job id is listed on two lines, a listed id is in the
    running list exactly if its code is R or CG, in the failed list exactly
    if its code is none of the four, and no id is in both lists. *)
Theorem parse_job_states_classifies (stdout : string) (rows : list row) :
  lists stdout rows ->
  Slurm.parse_job_states stdout =
    ok (ids_with running_code rows, ids_with failed_code rows) /\
  (NoDup (map fst rows) ->
   (forall job_id st, In (job_id, st) rows ->
      (In job_id (ids_with running_code rows) <-> running_code st = true) /\
      (In job_id (ids_with failed_code rows) <->
         running_code st = false /\ pending_code st = false)) /\
   (forall job_id,
      ~ (In job_id (ids_with running_code rows) /\
         In job_id (ids_with failed_code rows)))).
Proof.
  intros Hrows. split.
  - unfold Slurm.parse_job_states. now rewrite (parse_lines_rows rows _ [] [] Hrows).
  - intros Hnd. split.
    + intros job_id st Hin. rewrite !in_ids_with. split; split.
      * intros [st' [Hin' Hc]]. now rewrite (listed_once rows job_id st st').
      * intros Hc. now exists st.
      * intros [st' [Hin' Hc]]. rewrite (listed_once rows job_id st st') by assumption.
        unfold failed_code in Hc. apply andb_prop in Hc as [Hr Hp].
        now rewrite negb_true_iff in Hr, Hp.
      * intros [Hr Hp]. exists st. split; [assumption |].
        unfold failed_code. now rewrite Hr, Hp.
    + intros job_id [Hr Hf]. apply in_ids_with in Hr as [st [Hin Hc]].
      apply in_ids_with in Hf as [st' [Hin' Hc']].
      rewrite (listed_once rows job_id st' st Hnd Hin' Hin) in Hc'.
      unfold failed_code in Hc'. rewrite Hc in Hc'. discriminate.
Qed.

End Classification.

Lemma parse_job_states_classifies_witness :
  let stdout := "1 R" ++ Text.nl ++ "2 PD" ++ Text.nl ++ "3 F" in
  let rows := [("1", "R"); ("2", "PD"); ("3", "F")] in
  StatusSpec.lists stdout rows /\
  Slurm.parse_job_states stdout = ok (["1"], ["3"]) /\
  (NoDup (map fst rows) ->
   forall job_id, ~ (In job_id ["1"] /\ In job_id ["3"])).
Proof.
  pose proof (parse_job_states_classifies
                ("1 R" ++ Text.nl ++ "2 PD" ++ Text.nl ++ "3 F")
                [("1", "R"); ("2", "PD"); ("3", "F")]
                eq_refl) as [Hparse Hdistinct].
  split; [reflexivity |]. split; [exact Hparse |].
  intros Hnd. exact (proj2 (Hdistinct Hnd)).
Defined.

(** C4, as the claim words it, fails for an output that lists a job id on
    two lines: the id lands in both lists. *)
Lemma parse_job_states_both_lists :
  exists running failed,
    Slurm.parse_job_states Example.listed_twice = ok (running, failed) /\
    In "1" running /\ In "1" failed.
Proof.
  exists ["1"], ["1"]. repeat split; cbn; auto.
Qed.

(** ** The Slurm submit command *)

Lemma account_flag_raises `{Platform} (cfg : config) (info : cluster_info)
    (worker_name : option string) :
  account cfg <> "" ->
  Slurm.get_submit_cmd_env_stdin cfg info worker_name =
  err (builtin_error AttributeError).
Proof.
  intros Hacc. unfold Slurm.get_submit_cmd_env_stdin.
  destruct (String.eqb_spec (account cfg) ""); [contradiction | reflexivity].
Qed.

(** C3 at three configurations. With account [acct] the builder raises
    [AttributeError] instead of returning a command with [--account=acct];
    with qos [hi] the command holds the characters of [--qos=hi] one by one
    and not the argument [--qos=hi]; with both empty no argument starts with
    either flag. *)
Theorem submit_cmd_account_and_qos :
  @Slurm.get_submit_cmd_env_stdin Example.platform
    (Example.with_account_qos "acct" "") Example.info None
  = err (builtin_error AttributeError) /\
  (exists cmd env script,
     @Slurm.get_submit_cmd_env_stdin Example.platform
       (Example.with_account_qos "" "hi") Example.info None
     = ok (cmd, env, script) /\
     ~ In "--qos=hi" cmd /\
     firstn 8 (skipn 3 cmd) = ["-"; "-"; "q"; "o"; "s"; "="; "h"; "i"]) /\
  (exists cmd env script,
     @Slurm.get_submit_cmd_env_stdin Example.platform Example.cfg Example.info None
     = ok (cmd, env, script) /\
     forallb (fun a => negb (String.prefix "--account=" a) &&
                       negb (String.prefix "--qos=" a)) cmd = true).
Proof.
  split; [reflexivity |]. split.
  - eexists _, _, _. split; [reflexivity |]. split; [| reflexivity].
    cbn. intros Hin.
    repeat (destruct Hin as [Hin | Hin]; [discriminate Hin |]).
    exact Hin.
  - eexists _, _, _. split; reflexivity.
Qed.

(** ** The staged start and its cleanup *)

(** C1: when [FailStartClusterManager] fails at stage [k] (0, 1 or 2), the
    start raises after yielding exactly the [k] snapshots [{i: 0}], ...,
    [{i: k - 1}], and [stop_cluster] is invoked with the last of them: with
    the empty state when [k] is 0, with [{i: k - 1}] otherwise. In
    particular stage 0 gives [{}] and stage 1 gives [{i: 0}]. *)
Theorem failing_start_stops_with_last_state (o : oracle) (info : cluster_info)
    (k : Z) (previous : option state) (tr : list request) :
  0 <= k < 3 ->
  let w := mk_world (FailStart.mk_attrs k previous) tr in
  let seen := map (fun i => [("i", VInt i)]) (firstn (Z.to_nat k) [0; 1; 2]) in
  let last := if k =? 0 then [] else [("i", VInt (k - 1))] in
  fst (Lifecycle.drain o (Lifecycle.start_cluster info) [] w)
    = Lifecycle.Raised (raised ValueError (VStr "Oh No")) seen /\
  Z.of_nat (List.length seen) = k /\
  Lifecycle.last_state seen = last /\
  Lifecycle.start_or_cleanup o info w
    = (Lifecycle.CleanedUp (raised ValueError (VStr "Oh No")) last (Done tt),
       mk_world (FailStart.mk_attrs k (Some last)) tr).
Proof.
  intros Hk.
  assert (Hcases : k = 0 \/ k = 1 \/ k = 2) by lia.
  destruct Hcases as [-> | [-> | ->]]; repeat split; reflexivity.
Qed.

Lemma failing_start_stops_with_last_state_witness :
  0 <= 1 < 3 /\
  Lifecycle.start_or_cleanup (Example.always Example.gone) Example.info
    (mk_world (FailStart.mk_attrs 1 None) [])
  = (Lifecycle.CleanedUp (raised ValueError (VStr "Oh No"))
       [("i", VInt 0)] (Done tt),
     mk_world (FailStart.mk_attrs 1 (Some [("i", VInt 0)])) []).
Proof.
  split; [lia |].
  exact (proj2 (proj2 (proj2
    (failing_start_stops_with_last_state (Example.always Example.gone)
       Example.info 1 None [] ltac:(lia))))).
Defined.

(** ** Running programs *)

Lemma run_bind {S A B} `{Futures S} (o : oracle) (p : prog S A)
    (f : A -> prog S B) :
  forall w,
    run o (bind p f) w =
    match run o p w with
    | (Done a, w') => run o (f a) w'
    | (Failed e, w') => (Failed e, w')
    | (OnProc r k, w') => (OnProc r (fun out => bind (k out) f), w')
    | (Yielded v k, w') => (Yielded v (bind k f), w')
    | (OnFuture x k, w') => (OnFuture x (fun b => bind (k b) f), w')
    | (Sleeping k, w') => (Sleeping (bind k f), w')
    end.
Proof.
  induction p as [a | e | k IH | s k IH | r k IH | v k IH | x k IH | k IH];
    intros w; cbn [bind run]; try reflexivity.
  - apply IH.
  - apply IH.
  - destruct (o (trace w) r); [reflexivity | apply IH].
  - destruct (fut_result (attrs w) x); [apply IH | reflexivity].
Qed.

Lemma step_bind {S A B} `{Futures S} (p : prog S A) (f : A -> prog S B) :
  forall s,
    step (bind p f) s =
    match step p s with
    | (Done a, s') => step (f a) s'
    | (Failed e, s') => (Failed e, s')
    | (OnProc r k, s') => (OnProc r (fun out => bind (k out) f), s')
    | (Yielded v k, s') => (Yielded v (bind k f), s')
    | (OnFuture x k, s') => (OnFuture x (fun b => bind (k b) f), s')
    | (Sleeping k, s') => (Sleeping (bind k f), s')
    end.
Proof.
  induction p as [a | e | k IH | s k IH | r k IH | v k IH | x k IH | k IH];
    intros s0; cbn [bind step]; try reflexivity.
  - apply IH.
  - apply IH.
  - destruct (fut_result s0 x); [apply IH | reflexivity].
Qed.

Lemma run_lift {S A} `{Futures S} (o : oracle) (r : res A) (w : world S) :
  run o (lift r) w =
  (match r with inl e => Failed e | inr a => Done a end, w).
Proof. destruct r; reflexivity. Qed.

(** ** The launcher *)

Section Launcher.
Context `{Platform}.
Variable cfg : config.
Import LauncherSpec.

Lemma do_as_user_answered (user action : string) (kwargs : list (string * pyval))
    (o : oracle) (w : world JobQueue.jq_state) (p : proc_out)
    (code out errout : pyval) :
  o (trace w) (JobQueue.launcher_request cfg user action kwargs) = inr p ->
  answers p code out errout ->
  run o (JobQueue.do_as_user cfg user action kwargs) w =
  (Done (code, out, errout),
   mk_world (attrs w)
     (append (trace w) (JobQueue.launcher_request cfg user action kwargs))).
Proof.
  intros Ho [Hrc (result & is_ok & Hjson & Hok & Htruthy & Hc & Hout & Herr)].
  unfold JobQueue.do_as_user. cbn [run]. rewrite Ho, Hrc. cbn [Z.eqb negb].
  rewrite Hjson, run_lift, Hok. cbn [res_bind ok err]. rewrite Htruthy. cbn [negb].
  rewrite Hc, Hout, Herr. reflexivity.
Qed.

(** C6: [do_as_user] starts the launcher once. When the launcher process
    exits with a non-zero return code, [do_as_user] raises, whatever the
    process wrote; when it exits with 0 and answers with a false [ok], it
    raises an exception carrying the reported error; and it returns a triple
    exactly when the process exits with 0 and answers with a true [ok], the
    triple being the [returncode], [stdout] and [stderr] of the answer. *)
Theorem do_as_user_outcome (user action : string)
    (kwargs : list (string * pyval)) (o : oracle)
    (w : world JobQueue.jq_state) (p : proc_out) :
  o (trace w) (JobQueue.launcher_request cfg user action kwargs) = inr p ->
  let r := run o (JobQueue.do_as_user cfg user action kwargs) w in
  trace (snd r) =
    append (trace w) (JobQueue.launcher_request cfg user action kwargs) /\
  (returncode p <> 0 ->
   fst r = Failed (raised Exception
             (VStr (JobQueue.launcher_error (returncode p) (stdout p) (stderr p))))) /\
  (forall error, refuses p error -> fst r = Failed (raised Exception error)) /\
  (forall code out errout,
     fst r = Done (code, out, errout) <-> answers p code out errout).
Proof.
  intros Ho r. subst r. unfold JobQueue.do_as_user. cbn [run]. rewrite Ho.
  split; [| split; [| split]].
  - destruct (negb (returncode p =? 0)); [reflexivity |].
    destruct (json_loads (stdout p)); [| reflexivity].
    now rewrite run_lift.
  - intros Hrc. destruct (Z.eqb_spec (returncode p) 0); [contradiction |].
    reflexivity.
  - intros error [Hrc (result & is_ok & Hjson & Hok & Hfalsy & Herr)].
    rewrite Hrc. cbn [Z.eqb negb]. rewrite Hjson, run_lift, Hok.
    cbn [res_bind ok err]. rewrite Hfalsy. cbn [negb]. now rewrite Herr.
  - intros code out errout. split.
    + destruct (Z.eqb_spec (returncode p) 0) as [Hrc | Hrc]; cbn [negb];
        [| discriminate].
      destruct (json_loads (stdout p)) as [result |] eqn:Hjson; [| discriminate].
      rewrite run_lift.
      destruct (getitem result "ok") as [e | is_ok] eqn:Hok; [discriminate |].
      cbn [res_bind ok err]. destruct (truthy is_ok) eqn:Htruthy; cbn [negb].
      * destruct (getitem result "returncode") as [e | c] eqn:Hc;
          [discriminate |].
        destruct (getitem result "stdout") as [e | so] eqn:Hso;
          [discriminate |].
        destruct (getitem result "stderr") as [e | se] eqn:Hse;
          [discriminate |].
        cbn. intros [= <- <- <-]. split; [assumption |].
        now exists result, is_ok.
      * destruct (getitem result "error"); discriminate.
    + intros [Hrc (result & is_ok & Hjson & Hok & Htruthy & Hc & Hout & Herr)].
      rewrite Hrc. cbn [Z.eqb negb]. rewrite Hjson, run_lift, Hok.
      cbn [res_bind ok err]. rewrite Htruthy. cbn [negb].
      now rewrite Hc, Hout, Herr.
Qed.

End Launcher.

Lemma do_as_user_outcome_witness :
  let req := @JobQueue.launcher_request Example.platform Example.cfg
               "alice" "stop" [] in
  let w := mk_world JobQueue.initial [] in
  let call := @JobQueue.do_as_user Example.platform Example.cfg "alice" "stop" [] in
  (Example.always Example.crashed (trace w) req = inr Example.crashed /\
   returncode Example.crashed <> 0 /\
   fst (run (Example.always Example.crashed) call w)
   = Failed (raised Exception
       (VStr (JobQueue.launcher_error 1 Example.submitted_text
                "sudo: a password is required")))) /\
  (Example.always Example.refused (trace w) req = inr Example.refused /\
   @LauncherSpec.refuses Example.platform Example.refused (VStr "no such user") /\
   fst (run (Example.always Example.refused) call w)
   = Failed (raised Exception (VStr "no such user"))) /\
  (Example.always Example.gone (trace w) req = inr Example.gone /\
   fst (run (Example.always Example.gone) call w)
   = Done (VInt 1, VStr "", VStr "scancel: Job has finished")).
Proof.
  assert (Hnz : returncode Example.crashed <> 0) by discriminate.
  assert (Href : @LauncherSpec.refuses Example.platform Example.refused
                   (VStr "no such user")).
  { split; [reflexivity |].
    exists (VDict [("ok", VBool false); ("error", VStr "no such user")]),
           (VBool false).
    repeat split; reflexivity. }
  assert (Hans : @LauncherSpec.answers Example.platform Example.gone (VInt 1)
                   (VStr "") (VStr "scancel: Job has finished")).
  { split; [reflexivity |].
    exists (Example.reply_value 1 "" "scancel: Job has finished"), (VBool true).
    repeat split; reflexivity. }
  split; [| split].
  - split; [reflexivity |]. split; [exact Hnz |].
    exact (proj1 (proj2
      (@do_as_user_outcome Example.platform Example.cfg "alice" "stop" []
         (Example.always Example.crashed) (mk_world JobQueue.initial [])
         Example.crashed eq_refl)) Hnz).
  - split; [reflexivity |]. split; [exact Href |].
    exact (proj1 (proj2 (proj2
      (@do_as_user_outcome Example.platform Example.cfg "alice" "stop" []
         (Example.always Example.refused) (mk_world JobQueue.initial [])
         Example.refused eq_refl))) (VStr "no such user") Href).
  - split; [reflexivity |].
    exact (proj2 (proj2 (proj2 (proj2
      (@do_as_user_outcome Example.platform Example.cfg "alice" "stop" []
         (Example.always Example.gone) (mk_world JobQueue.initial [])
         Example.gone eq_refl))) (VInt 1) (VStr "")
         (VStr "scancel: Job has finished")) Hans).
Defined.

(** ** Stopping a job *)

Section Stop.
Context `{Platform} `{JobQueue.Backend}.
Variable cfg : config.
Import LauncherSpec.

Lemma stop_job_already_gone (info : cluster_info) (job_id : pyval)
    (worker_name : option string) (o : oracle) (w : world JobQueue.jq_state)
    (p : proc_out) (code out : pyval) (errout dir : string) :
  get_staging_directory cfg info = ok dir ->
  (forall req, o (trace w) req = inr p) ->
  answers p code out (VStr errout) ->
  Text.contains "Job has finished" errout = true ->
  fst (run o (JobQueue.stop_job cfg info job_id worker_name) w) = Done tt.
Proof.
  intros Hdir Ho Hans Hgone. unfold JobQueue.stop_job.
  destruct (JobQueue.get_stop_cmd_env cfg job_id) as [cmd env].
  rewrite run_bind, run_lift.
  assert (Hstaging : exists d,
             match name_given worker_name with
             | Some _ => ok VNone
             | None => (d <- get_staging_directory cfg info ;; ok (VStr d))%res
             end = inr d).
  { destruct (name_given worker_name); [now exists VNone |].
    rewrite Hdir. now exists (VStr dir). }
  destruct Hstaging as [d ->].
  rewrite run_bind, (do_as_user_answered cfg _ _ _ o w p code out (VStr errout))
    by (auto using Ho).
  destruct (ne_zero code); [| reflexivity].
  rewrite run_bind, run_lift. cbn [JobQueue.py_contains ok].
  rewrite Hgone. reflexivity.
Qed.

(** C2: for a state without a [job_id] key, [stop_cluster] and
    [stop_worker] return without error and without starting any subprocess.
    For a state with a job id, when the cancel command run by the launcher
    exits with a non-zero code and has "Job has finished" in its stderr,
    [stop_cluster] and [stop_worker] still return without error. *)
Theorem stop_is_safe (info : cluster_info) (o : oracle)
    (w : world JobQueue.jq_state) :
  (forall st,
     dict_get st "job_id" = None ->
     run o (JobQueue.stop_cluster cfg info st) w = (Done tt, w) /\
     forall name cs,
       run o (JobQueue.stop_worker cfg name st info cs) w = (Done tt, w)) /\
  (forall st job_id p code out errout dir,
     dict_get st "job_id" = Some job_id ->
     get_staging_directory cfg info = ok dir ->
     (forall req, o (trace w) req = inr p) ->
     answers p code out (VStr errout) -> ne_zero code = true ->
     Text.contains "Job has finished" errout = true ->
     fst (run o (JobQueue.stop_cluster cfg info st) w) = Done tt /\
     forall name cs,
       fst (run o (JobQueue.stop_worker cfg name st info cs) w) = Done tt).
Proof.
  split.
  - intros st Hnone. unfold JobQueue.stop_cluster, JobQueue.stop_worker.
    rewrite Hnone. split; reflexivity.
  - intros st job_id p code out errout dir Hsome Hdir Ho Hans _ Hgone.
    unfold JobQueue.stop_cluster, JobQueue.stop_worker. rewrite Hsome.
    split; [| intros name cs];
      destruct job_id; try reflexivity;
      eapply stop_job_already_gone; eassumption.
Qed.

End Stop.

Lemma stop_is_safe_witness :
  let w := mk_world JobQueue.initial [] in
  let o := Example.always Example.gone in
  let st := [("job_id", VStr "42")] in
  (dict_get st "job_id" = Some (VStr "42") /\
   @get_staging_directory Example.platform Example.cfg Example.info
     = ok "/home/alice/.dask-gateway/c1" /\
   (forall req, o (trace w) req = inr Example.gone) /\
   @LauncherSpec.answers Example.platform Example.gone (VInt 1) (VStr "")
     (VStr "scancel: Job has finished") /\
   ne_zero (VInt 1) = true /\
   Text.contains "Job has finished" "scancel: Job has finished" = true) /\
  fst (run o (@JobQueue.stop_cluster Example.platform Example.backend
                Example.cfg Example.info st) w) = Done tt.
Proof.
  assert (Hans : @LauncherSpec.answers Example.platform Example.gone (VInt 1)
                   (VStr "") (VStr "scancel: Job has finished")).
  { split; [reflexivity |].
    exists (Example.reply_value 1 "" "scancel: Job has finished"), (VBool true).
    repeat split; reflexivity. }
  split.
  - repeat split; try reflexivity. exact (proj2 Hans).
  - exact (proj1 (proj2
      (@stop_is_safe Example.platform Example.backend Example.cfg
         Example.info (Example.always Example.gone)
         (mk_world JobQueue.initial []))
      [("job_id", VStr "42")] (VStr "42") Example.gone (VInt 1) (VStr "")
      "scancel: Job has finished" "/home/alice/.dask-gateway/c1"
      eq_refl eq_refl (fun _ => eq_refl) Hans eq_refl eq_refl)).
Defined.

(** ** Starting a cluster or a worker *)

Section Start.
Context `{Platform} `{JobQueue.Backend}.
Variable cfg : config.
Import VerdictSpec.



End Start.

(** ** Dictionaries *)

Section Dict.
Context {V : Type}.
Implicit Types (d : list (string * V)) (k : string).

Lemma dict_get_none d k : dict_get d k = None <-> ~ In k (dict_keys d).
Proof.
  induction d as [| [k0 v0] d IH]; cbn; [tauto |].
  destruct (String.eqb_spec k0 k) as [-> | Hne].
  - split; [discriminate | intros Hn; exfalso; apply Hn; now left].
  - rewrite IH. tauto.
Qed.

Lemma dict_get_in d k v : dict_get d k = Some v -> In k (dict_keys d).
Proof.
  intros Hget. destruct (in_dec string_dec k (dict_keys d)) as [Hin | Hnin];
    [assumption |].
  apply dict_get_none in Hnin. congruence.
Qed.

Lemma dict_remove_other d k k' :
  k' <> k -> dict_get (dict_remove d k) k' = dict_get d k'.
Proof.
  intros Hne. induction d as [| [k0 v0] d IH]; cbn; [reflexivity |].
  destruct (String.eqb_spec k0 k) as [-> | Hk0].
  - destruct (String.eqb_spec k k'); [congruence | reflexivity].
  - cbn. now rewrite IH.
Qed.

Lemma dict_remove_keys d k k' :
  In k' (dict_keys (dict_remove d k)) -> In k' (dict_keys d).
Proof.
  induction d as [| [k0 v0] d IH]; cbn; [tauto |].
  destruct (String.eqb k0 k); cbn; tauto.
Qed.

Lemma dict_remove_nodup d k :
  NoDup (dict_keys d) -> NoDup (dict_keys (dict_remove d k)).
Proof.
  induction d as [| [k0 v0] d IH]; cbn; intros Hnd; [constructor |].
  inversion Hnd as [| ? ? Hnotin Hnd']; subst.
  destruct (String.eqb k0 k); [assumption |].
  cbn. constructor; [| now apply IH].
  intros Hin. apply Hnotin. eapply dict_remove_keys, Hin.
Qed.

Lemma dict_remove_same d k :
  NoDup (dict_keys d) -> dict_get (dict_remove d k) k = None.
Proof.
  induction d as [| [k0 v0] d IH]; cbn; intros Hnd; [reflexivity |].
  inversion Hnd as [| ? ? Hnotin Hnd']; subst.
  destruct (String.eqb_spec k0 k) as [-> | Hne].
  - now apply dict_get_none.
  - cbn. destruct (String.eqb_spec k0 k); [contradiction | now apply IH].
Qed.

Lemma dict_set_same d k v : dict_get (dict_set d k v) k = Some v.
Proof.
  induction d as [| [k0 v0] d IH]; cbn.
  - now rewrite String.eqb_refl.
  - destruct (String.eqb_spec k0 k) as [-> | Hne]; cbn.
    + now rewrite String.eqb_refl.
    + destruct (String.eqb_spec k0 k); [contradiction | assumption].
Qed.

Lemma dict_set_other d k k' v :
  k' <> k -> dict_get (dict_set d k v) k' = dict_get d k'.
Proof.
  intros Hne. induction d as [| [k0 v0] d IH]; cbn.
  - destruct (String.eqb_spec k k'); [congruence | reflexivity].
  - destruct (String.eqb_spec k0 k) as [-> | Hk0]; cbn.
    + destruct (String.eqb_spec k k'); [congruence | reflexivity].
    + now rewrite IH.
Qed.

Lemma dict_set_new_keys d k v :
  dict_get d k = None -> dict_keys (dict_set d k v) = (dict_keys d ++ [k])%list.
Proof.
  unfold dict_keys.
  induction d as [| [k0 v0] d IH]; cbn; [reflexivity |].
  destruct (String.eqb_spec k0 k); [discriminate |].
  intros Hget. cbn. f_equal. now apply IH.
Qed.

Lemma dict_set_nodup d k v :
  dict_get d k = None -> NoDup (dict_keys d) -> NoDup (dict_keys (dict_set d k v)).
Proof.
  intros Hget Hnd. rewrite (dict_set_new_keys d k v Hget).
  apply NoDup_app; [assumption | repeat constructor; intros [] |].
  intros x Hin [<- | []]. now apply dict_get_none in Hget.
Qed.

End Dict.

(** ** The invariant of the pending-interest map *)

Section Invariant.
Import JobQueue Tracking.

Lemma wf_initial : wf initial.
Proof.
  constructor; cbn; try discriminate; try (now constructor); auto.
  intros f Hf. now contradiction Hf.
Qed.

(** A future the loop has not created yet has no result. *)
Lemma next_fut_pending (s : jq_state) :
  wf s -> result_of (results s) (next_fut s) = None.
Proof.
  intros Hwf. destruct (result_of (results s) (next_fut s)) eqn:Hr; [| reflexivity].
  assert (next_fut s < next_fut s)%nat by (apply (wf_created s Hwf); congruence).
  lia.
Qed.

Lemma is_job_running_wf (job_id : string) (s : jq_state) :
  wf s -> wf (snd (is_job_running job_id s)).
Proof.
  intros Hwf. unfold is_job_running.
  pose proof (next_fut_pending s Hwf) as Hnext.
  pose proof (wf_tracker s Hwf) as Htr.
  destruct (job_tracker s) as [t |] eqn:Ht.
  - destruct (dict_get (jobs_to_track s) job_id) as [f |] eqn:Hget; cbn [snd];
      [assumption |].
    constructor; cbn.
    + now apply dict_set_nodup; [| apply (wf_keys s Hwf)].
    + intros id id' f.
      destruct (string_dec id job_id) as [-> | Hid],
               (string_dec id' job_id) as [-> | Hid']; [reflexivity | | |].
      * rewrite dict_set_same, dict_set_other by assumption.
        intros [= <-] Hold. apply (wf_pending s Hwf) in Hold. lia.
      * rewrite dict_set_same, dict_set_other by assumption.
        intros Hold [= <-]. apply (wf_pending s Hwf) in Hold. lia.
      * rewrite !dict_set_other by assumption. apply (wf_distinct s Hwf).
    + intros id f. destruct (string_dec id job_id) as [-> | Hid].
      * rewrite dict_set_same. intros [= <-]. split; [lia | assumption].
      * rewrite dict_set_other by assumption. intros Hold.
        apply (wf_pending s Hwf) in Hold. split; [lia | tauto].
    + intros f Hf. apply (wf_created s Hwf) in Hf. lia.
    + rewrite Ht. assumption.
  - cbn [jobs_to_track dict_get job_tracker background_tasks next_fut results
         dict_set snd].
    destruct Htr as [Hbg Hjobs].
    constructor; cbn.
    + repeat constructor. intros [].
    + intros id id' f.
      destruct (String.eqb_spec job_id id) as [<- |]; [| discriminate].
      destruct (String.eqb_spec job_id id') as [<- |]; [reflexivity | discriminate].
    + intros id f. destruct (String.eqb job_id id); [| discriminate].
      intros [= <-]. split; [lia | assumption].
    + intros f Hf. apply (wf_created s Hwf) in Hf. lia.
    + now rewrite Hbg.
Qed.

Lemma collect_wf (job_id : string) (s : jq_state) :
  wf s -> wf (with_jobs s (dict_remove (jobs_to_track s) job_id)).
Proof.
  intros Hwf.
  assert (Hsub : forall id f,
             dict_get (dict_remove (jobs_to_track s) job_id) id = Some f ->
             dict_get (jobs_to_track s) id = Some f).
  { intros id f. destruct (string_dec id job_id) as [-> | Hid].
    - rewrite dict_remove_same by apply (wf_keys s Hwf). discriminate.
    - now rewrite dict_remove_other. }
  constructor; cbn.
  - apply dict_remove_nodup, (wf_keys s Hwf).
  - intros id id' f H1 H2. eapply (wf_distinct s Hwf); eauto.
  - intros id f H1. eapply (wf_pending s Hwf); eauto.
  - apply (wf_created s Hwf).
  - pose proof (wf_tracker s Hwf) as Htr. destruct (job_tracker s); [assumption |].
    destruct Htr as [Hbg ->]. now split.
Qed.

Lemma resolved_one_wf (b : bool) (job_id : string) (s : jq_state) :
  wf s -> wf (resolved_one b s job_id).
Proof.
  intros Hwf. unfold resolved_one.
  destruct (dict_get (jobs_to_track s) job_id) as [f |] eqn:Hget; [| assumption].
  pose proof (collect_wf job_id s Hwf) as Hc.
  assert (Hsub : forall id g,
             dict_get (dict_remove (jobs_to_track s) job_id) id = Some g ->
             id <> job_id /\ dict_get (jobs_to_track s) id = Some g).
  { intros id g. destruct (string_dec id job_id) as [-> | Hid].
    - rewrite dict_remove_same by apply (wf_keys s Hwf). discriminate.
    - now rewrite dict_remove_other. }
  constructor; cbn.
  - apply (wf_keys _ Hc).
  - apply (wf_distinct _ Hc).
  - intros id g Hg. apply Hsub in Hg as [Hid Hg].
    pose proof (wf_pending s Hwf id g Hg) as [Hlt Hnone].
    split; [assumption |].
    destruct (Nat.eqb_spec f g) as [-> | Hne]; [| assumption].
    exfalso. apply Hid. apply (wf_distinct s Hwf id job_id g); assumption.
  - intros g. destruct (Nat.eqb_spec f g) as [<- | Hne].
    + intros _. apply (wf_pending s Hwf job_id f Hget).
    + apply (wf_created s Hwf).
  - apply (wf_tracker _ Hc).
Qed.

Lemma resolved_wf (b : bool) (ids : list string) :
  forall s, wf s -> wf (resolved b ids s).
Proof.
  induction ids as [| job_id ids IH]; intros s Hwf; [assumption |].
  cbn. apply IH. now apply resolved_one_wf.
Qed.

(** On a well-formed state [resolve_all] never fails, and its effect is
    [resolved]. *)
Lemma step_resolve_all (b : bool) (ids : list string) :
  forall s, wf s -> step (resolve_all b ids) s = (Done tt, resolved b ids s).
Proof.
  induction ids as [| job_id ids IH]; intros s Hwf; [reflexivity |].
  pose proof (resolved_one_wf b job_id s Hwf) as Hone.
  cbn [resolve_all step resolved fold_left]. unfold resolved_one in *.
  destruct (dict_get (jobs_to_track s) job_id) as [f |] eqn:Hget.
  - cbn [step]. rewrite step_bind. unfold set_result. cbn [step with_jobs results].
    destruct (wf_pending s Hwf job_id f Hget) as [_ ->].
    cbn [step jobs_to_track job_tracker background_tasks next_fut results].
    now apply IH.
  - now apply IH.
Qed.

Lemma resolved_one_get (b : bool) (job_id id : string) (s : jq_state) :
  wf s ->
  dict_get (jobs_to_track (resolved_one b s job_id)) id =
  if String.eqb id job_id then None else dict_get (jobs_to_track s) id.
Proof.
  intros Hwf. unfold resolved_one.
  destruct (dict_get (jobs_to_track s) job_id) as [f |] eqn:Hget; cbn.
  - destruct (String.eqb_spec id job_id) as [-> | Hid].
    + apply dict_remove_same, (wf_keys s Hwf).
    + now apply dict_remove_other.
  - destruct (String.eqb_spec id job_id) as [-> | Hid]; [assumption | reflexivity].
Qed.

Lemma resolved_get (b : bool) (ids : list string) (id : string) :
  forall s, wf s ->
    dict_get (jobs_to_track (resolved b ids s)) id =
    if listed id ids then None else dict_get (jobs_to_track s) id.
Proof.
  induction ids as [| job_id ids IH]; intros s Hwf; [reflexivity |].
  cbn [resolved fold_left listed existsb].
  change (fold_left (resolved_one b) ids (resolved_one b s job_id))
    with (resolved b ids (resolved_one b s job_id)).
  rewrite IH by now apply resolved_one_wf.
  change (existsb (String.eqb id) ids) with (listed id ids).
  rewrite resolved_one_get by assumption.
  destruct (String.eqb id job_id), (listed id ids); reflexivity.
Qed.

Lemma resolved_one_keeps (b : bool) (job_id : string) (s : jq_state)
    (f : fut) (v : bool) :
  wf s -> result_of (results s) f = Some v ->
  result_of (results (resolved_one b s job_id)) f = Some v.
Proof.
  intros Hwf Hres. unfold resolved_one.
  destruct (dict_get (jobs_to_track s) job_id) as [g |] eqn:Hget; [| assumption].
  cbn. destruct (Nat.eqb_spec g f) as [-> | Hne]; [| assumption].
  destruct (wf_pending s Hwf job_id f Hget) as [_ Hnone]. congruence.
Qed.

Lemma resolved_keeps (b : bool) (ids : list string) (f : fut) (v : bool) :
  forall s, wf s -> result_of (results s) f = Some v ->
    result_of (results (resolved b ids s)) f = Some v.
Proof.
  induction ids as [| job_id ids IH]; intros s Hwf Hres; [assumption |].
  cbn. apply IH; [now apply resolved_one_wf | now apply resolved_one_keeps].
Qed.


Lemma resolved_frame (b : bool) (ids : list string) :
  forall s,
    next_fut (resolved b ids s) = next_fut s /\
    job_tracker (resolved b ids s) = job_tracker s /\
    background_tasks (resolved b ids s) = background_tasks s.
Proof.
  unfold resolved.
  induction ids as [| job_id ids IH]; intros s; [auto |].
  cbn [fold_left]. destruct (IH (resolved_one b s job_id)) as (-> & -> & ->).
  unfold resolved_one. destruct (dict_get (jobs_to_track s) job_id); auto.
Qed.

Context `{Backend}.

(** Handling a status output on a well-formed state: a parse error ends the
    round with the state untouched, otherwise both lists are resolved. *)
Lemma step_resolve_verdicts (out : string) (s : jq_state) :
  wf s ->
  step (resolve_verdicts out) s =
  match parse_job_states out with
  | inl e => (Failed e, s)
  | inr (running, failed) =>
      (Done tt, resolved false failed (resolved true running s))
  end.
Proof.
  intros Hwf. unfold resolve_verdicts. rewrite step_bind.
  destruct (parse_job_states out) as [e | [running failed]]; [reflexivity |].
  cbn [lift step]. rewrite step_bind, step_resolve_all by assumption.
  apply step_resolve_all. now apply resolved_wf.
Qed.

Lemma transition_wf (s s' : jq_state) : wf s -> transition s s' -> wf s'.
Proof.
  intros Hwf Ht. destruct Ht as [job_id s | out s s' r Htr Hstep | job_id s].
  - now apply is_job_running_wf.
  - rewrite step_resolve_verdicts in Hstep by assumption.
    destruct (parse_job_states out) as [e | [running failed]];
      injection Hstep as _ <-; [assumption |].
    now apply resolved_wf, resolved_wf.
  - now apply collect_wf.
Qed.

Lemma reachable_wf (s : jq_state) : reachable s -> wf s.
Proof.
  induction 1 as [| s s' _ IH Ht]; [apply wf_initial |].
  eapply transition_wf; eassumption.
Qed.

End Invariant.

(** ** Registering interest in a job *)

Section Interest.
Import JobQueue Tracking.
Context `{Backend}.

Lemma listed_in (job_id : string) (ids : list string) :
  listed job_id ids = true <-> In job_id ids.
Proof.
  unfold listed. rewrite existsb_exists. split.
  - intros [x [Hin Heq]]. apply String.eqb_eq in Heq. now subst.
  - intros Hin. exists job_id. split; [assumption | apply String.eqb_refl].
Qed.

(** A call for a job id without an entry creates the next future of the loop
    and stores it under the id. *)
Lemma is_job_running_new (job_id : string) (s : jq_state) :
  wf s -> dict_get (jobs_to_track s) job_id = None ->
  fst (is_job_running job_id s) = next_fut s /\
  jobs_to_track (snd (is_job_running job_id s))
    = dict_set (jobs_to_track s) job_id (next_fut s) /\
  results (snd (is_job_running job_id s)) = results s.
Proof.
  intros Hwf Hget. unfold is_job_running.
  pose proof (wf_tracker s Hwf) as Htr.
  destruct (job_tracker s).
  - rewrite Hget. cbn. auto.
  - destruct Htr as [_ Hjobs]. rewrite Hjobs. cbn. auto.
Qed.

(** C8, as the code has it: in every state the manager can reach, a call of
    [is_job_running(job_id)] returns a slot that is stored under [job_id];
    when the map has no entry for [job_id] the slot is a new future of the
    loop, without a result and different from every slot in the map; a later
    call for the same id returns the same slot as long as that entry is
    still in the map. The polling task is created by the first call: before
    it no background task exists, after any call exactly one does, and a
    call that finds the task leaves it alone. *)
Theorem is_job_running_slot (s : jq_state) (job_id : string) :
  reachable s ->
  let f := fst (is_job_running job_id s) in
  let s1 := snd (is_job_running job_id s) in
  dict_get (jobs_to_track s1) job_id = Some f /\
  (dict_get (jobs_to_track s) job_id = None ->
     f = next_fut s /\ fut_result s1 f = None /\
     forall id g, dict_get (jobs_to_track s) id = Some g -> g <> f) /\
  (forall s2,
     job_tracker s2 <> None ->
     dict_get (jobs_to_track s2) job_id = Some f ->
     is_job_running job_id s2 = (f, s2)) /\
  (job_tracker s = None -> background_tasks s = 0%nat) /\
  (job_tracker s <> None -> job_tracker s1 = job_tracker s) /\
  job_tracker s1 <> None /\ background_tasks s1 = 1%nat.
Proof.
  intros Hreach f s1. apply reachable_wf in Hreach as Hwf.
  pose proof (wf_tracker s Hwf) as Htr. subst f s1.
  split; [| split; [| split; [| split; [| split; [| split]]]]].
  - unfold is_job_running.
    destruct (job_tracker s); cbn [jobs_to_track dict_get].
    + destruct (dict_get (jobs_to_track s) job_id) eqn:Hget; cbn;
        [assumption | apply dict_set_same].
    + cbn. now rewrite String.eqb_refl.
  - intros Hget.
    destruct (is_job_running_new job_id s Hwf Hget) as (Hf & _ & Hres).
    split; [assumption |]. split.
    + unfold fut_result, jq_futures. rewrite Hres, Hf.
      apply (next_fut_pending s Hwf).
    + intros id g Hg. apply (wf_pending s Hwf) in Hg as [Hlt _].
      rewrite Hf. lia.
  - intros s2 Htr2 Hget. unfold is_job_running at 1.
    destruct (job_tracker s2); [| contradiction]. now rewrite Hget.
  - intros Hnone. rewrite Hnone in Htr. tauto.
  - intros Hsome. unfold is_job_running.
    destruct (job_tracker s) eqn:Ht; [| contradiction].
    destruct (dict_get (jobs_to_track s) job_id); cbn; congruence.
  - unfold is_job_running.
    destruct (job_tracker s) eqn:Ht;
      [destruct (dict_get (jobs_to_track s) job_id) |]; cbn; congruence.
  - unfold is_job_running.
    destruct (job_tracker s) eqn:Ht;
      [destruct (dict_get (jobs_to_track s) job_id) |]; cbn; try assumption.
    destruct Htr as [-> _]. reflexivity.
Qed.

(** C10: in every state the manager can reach, each future stored in the
    map has no result. The poller takes an entry out of the map before it
    calls [set_result] on its slot. When the polling task handles a status
    output and thereby gives the slot stored under a job id its result, the
    entry is gone from the map, and the next [is_job_running] call for that
    id creates a different slot, without a result, and stores it. *)
Theorem tracked_futures_are_pending (s : jq_state) :
  reachable s ->
  (forall id f,
     dict_get (jobs_to_track s) id = Some f -> fut_result s f = None) /\
  (forall b id rest f,
     dict_get (jobs_to_track s) id = Some f ->
     let popped := with_jobs s (dict_remove (jobs_to_track s) id) in
     dict_get (jobs_to_track popped) id = None /\
     step (resolve_all b (id :: rest)) s =
     step (set_result f b ;; resolve_all b rest)%prog popped) /\
  (forall out s' id f,
     dict_get (jobs_to_track s) id = Some f ->
     step (resolve_verdicts out) s = (Done tt, s') ->
     fut_result s' f <> None ->
     dict_get (jobs_to_track s') id = None /\
     let f' := fst (is_job_running id s') in
     let s'' := snd (is_job_running id s') in
     f' <> f /\ fut_result s'' f' = None /\
     dict_get (jobs_to_track s'') id = Some f').
Proof.
  intros Hreach. apply reachable_wf in Hreach as Hwf. split; [| split].
  - intros id f Hget. apply (wf_pending s Hwf id f Hget).
  - intros b id rest f Hget popped. split.
    + apply dict_remove_same, (wf_keys s Hwf).
    + cbn [resolve_all step]. now rewrite Hget.
  - intros out s' id f Hget Hstep Hres.
    rewrite step_resolve_verdicts in Hstep by assumption.
    destruct (parse_job_states out) as [e | [running failed]]; [discriminate |].
    injection Hstep as <-.
    set (mid := resolved true running s) in *.
    set (s' := resolved false failed mid) in *.
    assert (Hmid : wf mid) by now apply resolved_wf.
    assert (Hwf' : wf s') by now apply resolved_wf.
    assert (Hgone : dict_get (jobs_to_track s') id = None).
    { destruct (dict_get (jobs_to_track s') id) as [g |] eqn:Hg; [| reflexivity].
      exfalso. apply Hres.
      subst s' mid. rewrite !resolved_get in Hg by assumption.
      destruct (listed id failed) eqn:Hfail; [discriminate |].
      destruct (listed id running) eqn:Hrun; [discriminate |].
      assert (g = f) by congruence. subst g.
      apply (wf_pending _ Hwf' id f).
      rewrite !resolved_get by assumption.
      now rewrite Hfail, Hrun. }
    split; [assumption |].
    destruct (is_job_running_new id s' Hwf' Hgone) as (Hf & Hjobs & Hresults).
    cbn zeta. repeat split.
    + rewrite Hf. subst s' mid.
      destruct (resolved_frame false failed (resolved true running s)) as (-> & _).
      destruct (resolved_frame true running s) as (-> & _).
      apply (wf_pending s Hwf) in Hget. lia.
    + unfold fut_result, jq_futures. rewrite Hresults, Hf.
      apply (next_fut_pending s' Hwf').
    + rewrite Hjobs, Hf. apply dict_set_same.
Qed.

Variable cfg : config.


End Interest.

(** ** The Slurm manager at work *)

Lemma is_job_running_slot_witness :
  @Tracking.reachable Example.backend JobQueue.initial /\
  dict_get (JobQueue.jobs_to_track (snd (JobQueue.is_job_running "1" JobQueue.initial))) "1"
    = Some (fst (JobQueue.is_job_running "1" JobQueue.initial)) /\
  (JobQueue.job_tracker JobQueue.initial = None ->
   JobQueue.background_tasks JobQueue.initial = 0%nat) /\
  JobQueue.background_tasks (snd (JobQueue.is_job_running "1" JobQueue.initial)) = 1%nat.
Proof.
  pose proof (@is_job_running_slot Example.backend JobQueue.initial "1"
                (@Tracking.r_initial Example.backend))
    as (Hstored & _ & _ & Hlazy & _ & _ & Honce).
  split; [apply Tracking.r_initial |].
  split; [exact Hstored |]. split; [exact Hlazy | exact Honce].
Defined.

(** C8, as the claim words it, fails once the poller has delivered a
    verdict: the first call for job 1 returns slot 0, the poller handles an
    output that lists job 1 as running, and the next call for job 1 returns
    slot 1. *)
Lemma is_job_running_other_slot_after_verdict :
  let first := JobQueue.is_job_running "1" JobQueue.initial in
  exists s2,
    step (@JobQueue.resolve_verdicts Example.backend "1 R") (snd first)
      = (Done tt, s2) /\
    fut_result s2 (fst first) = Some true /\
    fst (JobQueue.is_job_running "1" s2) <> fst first.
Proof.
  eexists. split; [reflexivity |]. split; [reflexivity |]. discriminate.
Qed.

Lemma tracked_futures_are_pending_witness :
  let s1 := snd (JobQueue.is_job_running "1" JobQueue.initial) in
  let s2 := snd (step (@JobQueue.resolve_verdicts Example.backend "1 R") s1) in
  @Tracking.reachable Example.backend s1 /\
  (forall id f,
     dict_get (JobQueue.jobs_to_track s1) id = Some f -> fut_result s1 f = None) /\
  (dict_get (JobQueue.jobs_to_track s1) "1" = Some 0%nat /\
   step (@JobQueue.resolve_verdicts Example.backend "1 R") s1 = (Done tt, s2) /\
   fut_result s2 0%nat <> None) /\
  dict_get (JobQueue.jobs_to_track s2) "1" = None /\
  fst (JobQueue.is_job_running "1" s2) <> 0%nat /\
  fut_result (snd (JobQueue.is_job_running "1" s2))
    (fst (JobQueue.is_job_running "1" s2)) = None.
Proof.
  assert (Hreach : @Tracking.reachable Example.backend
                     (snd (JobQueue.is_job_running "1" JobQueue.initial))).
  { eapply Tracking.r_next; [apply Tracking.r_initial | apply Tracking.t_call]. }
  assert (Hres : fut_result
                   (snd (step (@JobQueue.resolve_verdicts Example.backend "1 R")
                           (snd (JobQueue.is_job_running "1" JobQueue.initial))))
                   0%nat <> None) by discriminate.
  pose proof (@tracked_futures_are_pending Example.backend _ Hreach)
    as (Hpending & _ & Hnext).
  destruct (Hnext "1 R" _ "1" 0%nat eq_refl eq_refl Hres)
    as (Hgone & Hother & Hfresh & _).
  split; [exact Hreach |]. split; [exact Hpending |].
  split; [split; [reflexivity | split; [reflexivity | exact Hres]] |].
  split; [exact Hgone |]. split; [exact Hother | exact Hfresh].
Defined.



(* ===================================================================== *)
(** * Further properties of the code *)
(* ===================================================================== *)

(** ** Text *)

Lemma prefix_app (a b : string) : String.prefix a (a ++ b) = true.
Proof.
  induction a as [| c a IH]; cbn; [now destruct b |].
  destruct (ascii_dec c c) as [_ | Hne]; [exact IH | now contradiction Hne].
Qed.

Lemma length_app (a b : string) :
  String.length (a ++ b) = (String.length a + String.length b)%nat.
Proof. induction a as [| c a IH]; cbn; [reflexivity | now rewrite IH]. Qed.

Lemma last_app_cons {A} (l l' : list A) (x d : A) :
  last (l ++ x :: l') d = last (x :: l') d.
Proof.
  induction l as [| y l IH]; [reflexivity |].
  cbn [app]. change (last (y :: (l ++ x :: l')) d) with
    (match (l ++ x :: l')%list with [] => y | _ :: _ => last (l ++ x :: l') d end).
  destruct (l ++ x :: l')%list eqn:Happ; [now destruct l | exact IH].
Qed.

Lemma lstrip_split (s : string) :
  exists pre, s = pre ++ Text.lstrip s /\ TextSpec.all_space pre = true.
Proof.
  induction s as [| c s [pre [Hs Hpre]]]; [now exists "" |].
  cbn [Text.lstrip]. destruct (Text.is_space c) eqn:Hc.
  - exists (String c pre). cbn. rewrite Hc, Hpre. split; [now f_equal | reflexivity].
  - now exists "".
Qed.

Lemma rstrip_split (s : string) :
  exists post, s = Text.rstrip s ++ post /\ TextSpec.all_space post = true.
Proof.
  induction s as [| c s [post [Hs Hpost]]]; [now exists "" |].
  cbn [Text.rstrip].
  destruct (String.eqb_spec (Text.rstrip s) "") as [Hr | Hr]; cbn [andb].
  - destruct (Text.is_space c) eqn:Hc.
    + exists (String c post). rewrite Hr in Hs. cbn in Hs. cbn.
      rewrite Hc, Hpost. split; [now f_equal | reflexivity].
    + exists post. cbn. split; [now f_equal | assumption].
  - exists post. cbn. split; [now f_equal | assumption].
Qed.

Lemma rstrip_fixed (s : string) : Text.rstrip (Text.rstrip s) = Text.rstrip s.
Proof.
  induction s as [| c s IH]; [reflexivity |].
  cbn [Text.rstrip].
  destruct (String.eqb (Text.rstrip s) "" && Text.is_space c) eqn:Hcond;
    [reflexivity |].
  cbn [Text.rstrip]. now rewrite IH, Hcond.
Qed.

Lemma lstrip_fixed (s : string) : Text.lstrip (Text.lstrip s) = Text.lstrip s.
Proof.
  induction s as [| c s IH]; [reflexivity |].
  cbn [Text.lstrip]. destruct (Text.is_space c) eqn:Hc; [assumption |].
  cbn [Text.lstrip]. now rewrite Hc.
Qed.

Lemma lstrip_rstrip (t : string) :
  Text.lstrip t = t -> Text.lstrip (Text.rstrip t) = Text.rstrip t.
Proof.
  destruct t as [| c t]; [reflexivity |].
  cbn [Text.lstrip]. destruct (Text.is_space c) eqn:Hc.
  - intros Heq. exfalso.
    destruct (lstrip_split t) as [pre [Ht _]].
    apply (f_equal String.length) in Heq. rewrite Ht in Heq at 2.
    cbn in Heq. rewrite length_app in Heq. lia.
  - intros _. cbn [Text.rstrip]. rewrite Hc, andb_false_r.
    cbn [Text.lstrip]. now rewrite Hc.
Qed.

(** X1: The job id [parse_job_id] returns for a [str] is the output with the
    white space at both ends taken off and nothing else: the output is the
    id between two runs of white space, and the id itself is left as it is
    by [lstrip], [rstrip] and [strip]. Any other value has no [strip] and
    raises [AttributeError]. *)
Theorem parse_job_id_trims (out : pyval) :
  match out with
  | VStr s =>
      Slurm.parse_job_id out = ok (Text.strip s) /\
      (exists pre post,
         s = pre ++ Text.strip s ++ post /\
         TextSpec.all_space pre = true /\ TextSpec.all_space post = true) /\
      Text.lstrip (Text.strip s) = Text.strip s /\
      Text.rstrip (Text.strip s) = Text.strip s /\
      Slurm.parse_job_id (VStr (Text.strip s)) = ok (Text.strip s)
  | _ => Slurm.parse_job_id out = err (builtin_error AttributeError)
  end.
Proof.
  destruct out as [| b | z | s | l | d]; try reflexivity.
  assert (Hl : Text.lstrip (Text.strip s) = Text.strip s)
    by (apply lstrip_rstrip, lstrip_fixed).
  assert (Hr : Text.rstrip (Text.strip s) = Text.strip s) by apply rstrip_fixed.
  split; [reflexivity |]. split; [| split; [exact Hl | split; [exact Hr |]]].
  - destruct (lstrip_split s) as [pre [Hs Hpre]].
    destruct (rstrip_split (Text.lstrip s)) as [post [Hm Hpost]].
    exists pre, post. split; [| now split].
    unfold Text.strip. now rewrite <- Hm.
  - cbn [Slurm.parse_job_id]. unfold Text.strip at 1. now rewrite Hl, Hr.
Qed.

(** ** The status output, line by line *)

Lemma parse_lines_outcome (ls : list string) :
  forall running failed,
    match Slurm.parse_lines ls running failed with
    | inr _ => Forall TextSpec.two_fields ls
    | inl e =>
        e = builtin_error ValueError /\
        Exists (fun l => ~ TextSpec.two_fields l) ls
    end.
Proof.
  induction ls as [| l ls IH]; intros running failed; cbn [Slurm.parse_lines];
    [constructor |].
  destruct (Text.split l) as [| x [| y [| z t]]] eqn:Hsplit;
    try (split; [reflexivity |]; apply Exists_cons_hd;
         unfold TextSpec.two_fields; rewrite Hsplit; cbn; lia).
  assert (Htwo : TextSpec.two_fields l)
    by (unfold TextSpec.two_fields; now rewrite Hsplit).
  assert (Hrest : forall r f,
             match Slurm.parse_lines ls r f with
             | inr _ => Forall TextSpec.two_fields (l :: ls)
             | inl e =>
                 e = builtin_error ValueError /\
                 Exists (fun l0 => ~ TextSpec.two_fields l0) (l :: ls)
             end).
  { intros r f. specialize (IH r f).
    destruct (Slurm.parse_lines ls r f) as [e | out].
    - destruct IH as [He Hex]. split; [exact He | now apply Exists_cons_tl].
    - now constructor. }
  destruct (Slurm.in2 y "R" "CG"); [apply Hrest |].
  destruct (negb (Slurm.in2 y "PD" "CF")); apply Hrest.
Qed.

(** X2: [parse_job_states] returns exactly when every line of the output has
    two fields; a line with fewer or more fields, a blank line included,
    makes it raise [ValueError] whatever the other lines say. An output
    without lines gives two empty lists. *)
Theorem parse_job_states_needs_two_fields (stdout : string) :
  match Slurm.parse_job_states stdout with
  | inr _ => Forall TextSpec.two_fields (Text.splitlines stdout)
  | inl e =>
      e = builtin_error ValueError /\
      Exists (fun l => ~ TextSpec.two_fields l) (Text.splitlines stdout)
  end /\
  (Text.splitlines stdout = [] -> Slurm.parse_job_states stdout = ok ([], [])).
Proof.
  split; [apply parse_lines_outcome |].
  unfold Slurm.parse_job_states. now intros ->.
Qed.

Lemma parse_job_states_needs_two_fields_witness :
  Text.splitlines "" = [] /\
  Slurm.parse_job_states "" = ok ([], []) /\
  (exists e, Slurm.parse_job_states ("1 R" ++ Text.nl ++ Text.nl ++ "2 PD") = inl e).
Proof.
  split; [reflexivity |].
  split; [exact (proj2 (parse_job_states_needs_two_fields "") eq_refl) |].
  eexists. reflexivity.
Defined.

(** ** Directories and paths *)

Section Paths.
Context `{Platform}.
Variable cfg : config.

(** X6: Where the staging directory of a cluster lies. An unknown user raises
    [KeyError]. Otherwise, with [root] the formatted template: a cluster
    name that does not start with a slash gives a directory below [root]
    that ends with the cluster name; a cluster name that starts with a slash
    is taken as the directory itself, whatever [root] is. *)
Theorem staging_directory_location (info : cluster_info) :
  (getpwnam_dir (username info) = None ->
   get_staging_directory cfg info
     = err (raised KeyError (VStr (username info)))) /\
  (forall home root,
     getpwnam_dir (username info) = Some home ->
     str_format (staging_directory cfg) home (username info) = ok root ->
     exists dir,
       get_staging_directory cfg info = ok dir /\
       if String.prefix "/" (cluster_name info)
       then dir = cluster_name info
       else String.prefix root dir = true /\
            (dir = root ++ cluster_name info \/
             dir = root ++ "/" ++ cluster_name info)).
Proof.
  unfold get_staging_directory. split.
  - now intros ->.
  - intros home root -> ->. cbn [res_bind ok]. eexists. split; [reflexivity |].
    unfold Text.path_join.
    destruct (String.prefix "/" (cluster_name info)); [reflexivity |].
    destruct (String.eqb root "" || Text.ends_with_slash root).
    + split; [apply prefix_app | now left].
    + split; [apply prefix_app | now right].
Qed.

Lemma app_last_inj (d d' : string) (x y : ascii) :
  d ++ String x "" = d' ++ String y "" -> x = y.
Proof.
  revert d'. induction d as [| c d IH]; intros [| c' d']; cbn.
  - now intros [= ->].
  - intros [= _ Hrest]. now destruct d'.
  - intros [= _ Hrest]. now destruct d.
  - intros [= _ Hrest]. now apply (IH d').
Qed.

Lemma last_char (c : ascii) (rest : string) :
  exists d l,
    String c rest = d ++ String l "" /\
    String.get (String.length rest) (String c rest) = Some l.
Proof.
  revert c. induction rest as [| c' rest IH]; intros c.
  - exists "", c. now split.
  - destruct (IH c') as (d & l & Hd & Hl).
    exists (String c d), l. split.
    + change (String c (String c' rest) = String c (d ++ String l "")).
      now rewrite Hd.
    + cbn [String.length String.get]. exact Hl.
Qed.

(** [ends_with_slash] is what its name says. *)
Lemma ends_with_slash_spec (a : string) :
  Text.ends_with_slash a = true <-> exists d, a = d ++ "/".
Proof.
  unfold Text.ends_with_slash. destruct a as [| c rest].
  - cbn. split; [discriminate | intros [d Hd]; now destruct d].
  - cbn [String.length]. rewrite Nat.sub_1_r. cbn [Nat.pred].
    destruct (last_char c rest) as (d & l & Hd & ->). split.
    + intros Heq. apply Ascii.eqb_eq in Heq. subst l. now exists d.
    + intros [d' Hd']. rewrite Hd in Hd'.
      apply app_last_inj in Hd'. subst l. apply Ascii.eqb_refl.
Qed.

(** X7: The TLS certificate and key lie directly in the staging directory,
    under the names [dask.crt] and [dask.pem]: when the directory is empty
    or ends with a slash the names are appended as they are, in every other
    case they are appended after one slash. [get_tls_paths] fails exactly
    as [get_staging_directory] does. *)
Theorem tls_paths_in_staging_directory (info : cluster_info) :
  match get_staging_directory cfg info with
  | inl e => get_tls_paths cfg info = inl e
  | inr dir =>
      ((dir = "" \/ exists d, dir = d ++ "/") ->
       get_tls_paths cfg info = ok (dir ++ "dask.crt", dir ++ "dask.pem")) /\
      (dir <> "" -> ~ (exists d, dir = d ++ "/") ->
       get_tls_paths cfg info
         = ok (dir ++ "/dask.crt", dir ++ "/dask.pem"))
  end.
Proof.
  unfold get_tls_paths.
  destruct (get_staging_directory cfg info) as [e | dir]; [reflexivity |].
  cbn [res_bind]. unfold Text.path_join. cbn [String.prefix].
  destruct (ascii_dec "/" "d") as [Habs | _]; [discriminate Habs |].
  split.
  - intros Hdir.
    assert (Hcond : String.eqb dir "" || Text.ends_with_slash dir = true).
    { destruct Hdir as [-> | Hslash]; [reflexivity |].
      apply ends_with_slash_spec in Hslash. rewrite Hslash. apply orb_true_r. }
    now rewrite Hcond.
  - intros Hne Hnot.
    assert (Hcond : String.eqb dir "" || Text.ends_with_slash dir = false).
    { destruct (String.eqb_spec dir ""); [contradiction |].
      destruct (Text.ends_with_slash dir) eqn:Hslash; [| reflexivity].
      exfalso. apply Hnot. now apply ends_with_slash_spec. }
    now rewrite Hcond.
Qed.

End Paths.

Lemma tls_paths_in_staging_directory_witness :
  let dir := "/home/alice/.dask-gateway/c1" in
  @get_staging_directory Example.platform Example.cfg Example.info = ok dir /\
  dir <> "" /\ ~ (exists d, dir = d ++ "/") /\
  @get_tls_paths Example.platform Example.cfg Example.info
    = ok ("/home/alice/.dask-gateway/c1/dask.crt",
          "/home/alice/.dask-gateway/c1/dask.pem").
Proof.
  assert (Hne : "/home/alice/.dask-gateway/c1" <> "") by discriminate.
  assert (Hnot : ~ (exists d, "/home/alice/.dask-gateway/c1" = d ++ "/")).
  { intros Hex. apply ends_with_slash_spec in Hex. discriminate Hex. }
  split; [reflexivity |]. split; [exact Hne |]. split; [exact Hnot |].
  exact (proj2 (@tls_paths_in_staging_directory Example.platform Example.cfg
                  Example.info) Hne Hnot).
Defined.

Lemma staging_directory_location_witness :
  @getpwnam_dir Example.platform (username Example.info) = Some "/home/alice" /\
  @str_format Example.platform (staging_directory Example.cfg) "/home/alice"
    (username Example.info) = ok "/home/alice/.dask-gateway/" /\
  exists dir,
    @get_staging_directory Example.platform Example.cfg Example.info = ok dir /\
    String.prefix "/home/alice/.dask-gateway/" dir = true.
Proof.
  split; [reflexivity |]. split; [reflexivity |].
  destruct (proj2 (@staging_directory_location Example.platform Example.cfg
                     Example.info)
              "/home/alice" "/home/alice/.dask-gateway/" eq_refl eq_refl)
    as [dir [Hdir Hloc]].
  exists dir. split; [exact Hdir | exact (proj1 Hloc)].
Defined.

(** ** The Slurm submit command, its failures and its environment *)

Section Submit.
Context `{Platform}.
Variable cfg : config.

(** X4: The Slurm submit command is built exactly when the account is empty,
    the memory of the job can be formatted and the staging directory can be
    found. *)
Theorem submit_cmd_built_exactly (info : cluster_info)
    (worker_name : option string) :
  (exists out, Slurm.get_submit_cmd_env_stdin cfg info worker_name = ok out) <->
  account cfg = "" /\
  (exists mem, Slurm.slurm_format_memory (asked_memory cfg worker_name) = ok mem) /\
  (exists dir, get_staging_directory cfg info = ok dir).
Proof.
  unfold Slurm.get_submit_cmd_env_stdin, asked_memory.
  destruct (String.eqb_spec (account cfg) "") as [Hacc | Hacc]; cbn [negb res_bind ok err].
  - destruct (name_given worker_name) as [w |];
      [destruct (Slurm.slurm_format_memory (worker_memory cfg)) as [e | mem]
      | destruct (Slurm.slurm_format_memory (scheduler_memory cfg)) as [e | mem]];
      cbn [res_bind ok];
      try (split; [intros [out Hout]; discriminate Hout
                  | intros (_ & [mem Hmem] & _); discriminate Hmem]);
      destruct (get_staging_directory cfg info) as [e | dir]; cbn [res_bind ok];
      try (split; [intros [out Hout]; discriminate Hout
                  | intros (_ & _ & [dir Hdir]); discriminate Hdir]);
      (split; [intros _; repeat split; eauto | intros _; eauto]).
  - split; [intros [out Hout]; discriminate Hout | intros [Habs _]; contradiction].
Qed.

(** X5: What a built Slurm submit command carries. For a named worker the
    environment is that of [get_env] with [DASK_GATEWAY_WORKER_NAME] set to
    the worker's name and every other variable untouched, and the job asks
    for the worker's cores; for a cluster the environment is that of
    [get_env] and the job asks for the scheduler's cores. In both cases the
    last argument exports the names of the environment in sorted order. *)
Theorem submit_cmd_environment (info : cluster_info)
    (worker_name : option string) (cmd : list string)
    (env : list (string * string)) (script : string) :
  Slurm.get_submit_cmd_env_stdin cfg info worker_name = ok (cmd, env, script) ->
  match name_given worker_name with
  | Some w =>
      dict_get env "DASK_GATEWAY_WORKER_NAME" = Some w /\
      (forall k, k <> "DASK_GATEWAY_WORKER_NAME" ->
                 dict_get env k = dict_get (get_env info) k) /\
      In ("--cpus-per-task=" ++ str_of_Z (worker_cores cfg)) cmd
  | None =>
      env = get_env info /\
      In ("--cpus-per-task=" ++ str_of_Z (scheduler_cores cfg)) cmd
  end /\
  last cmd "" = "--export=" ++ Text.join "," (Text.sorted (dict_keys env)).
Proof.
  unfold Slurm.get_submit_cmd_env_stdin.
  destruct (negb (String.eqb (account cfg) "")); cbn [res_bind ok err];
    [discriminate |].
  set (base := if negb (String.eqb (qos cfg) "") then _ else _).
  destruct (name_given worker_name) as [w |].
  - destruct (Slurm.slurm_format_memory (worker_memory cfg)) as [e | mem];
      cbn [res_bind ok]; [discriminate |].
    destruct (get_staging_directory cfg info) as [e | dir];
      cbn [res_bind ok]; [discriminate |].
    intros [= <- <- <-]. unfold extend. split.
    + split; [apply dict_set_same |]. split.
      * intros k Hk. now apply dict_set_other.
      * apply in_or_app. right. cbn. auto.
    + now rewrite last_app_cons.
  - destruct (Slurm.slurm_format_memory (scheduler_memory cfg)) as [e | mem];
      cbn [res_bind ok]; [discriminate |].
    destruct (get_staging_directory cfg info) as [e | dir];
      cbn [res_bind ok]; [discriminate |].
    intros [= <- <- <-]. unfold extend. split.
    + split; [reflexivity |]. apply in_or_app. right. cbn. auto.
    + now rewrite last_app_cons.
Qed.

End Submit.

Lemma submit_cmd_environment_witness :
  (exists cmd env script,
     @Slurm.get_submit_cmd_env_stdin Example.platform Example.cfg Example.info
       (Some "w1") = ok (cmd, env, script) /\
     dict_get env "DASK_GATEWAY_WORKER_NAME" = Some "w1" /\
     last cmd "" = "--export=" ++ Text.join "," (Text.sorted (dict_keys env))).
Proof.
  eexists _, _, _. split; [reflexivity |].
  pose proof (@submit_cmd_environment Example.platform Example.cfg Example.info
                (Some "w1") _ _ _ eq_refl) as [[Hname _] Hlast].
  split; [exact Hname | exact Hlast].
Defined.

(** ** Memory sizes beyond the range of a float *)

Lemma round53_parts (n : Z) :
  2 ^ 53 <= n ->
  let sh := Z.log2 n - 52 in
  let q := n / 2 ^ sh in
  let r := n mod 2 ^ sh in
  1 <= sh /\ 2 ^ 52 <= q < 2 ^ 53 /\ 0 <= r < 2 ^ sh /\ n = 2 ^ sh * q + r /\
  Slurm.round53 n =
    (if (2 ^ (sh - 1) <? r) || ((r =? 2 ^ (sh - 1)) && Z.odd q) then q + 1 else q)
    * 2 ^ sh.
Proof.
  intros Hn sh q r.
  assert (Hpos : 0 < n) by (assert (0 < 2 ^ 53) by reflexivity; lia).
  destruct (Z.log2_spec n Hpos) as [Hlo Hhi].
  assert (Hb : 53 <= Z.log2 n).
  { apply Z.log2_le_pow2; assumption. }
  assert (Hsh : 1 <= sh) by (subst sh; lia).
  assert (HP : 0 < 2 ^ sh) by (apply Z.pow_pos_nonneg; lia).
  assert (Hlow : 2 ^ Z.log2 n = 2 ^ 52 * 2 ^ sh).
  { rewrite <- Z.pow_add_r by lia. f_equal. subst sh. lia. }
  assert (Hup : 2 ^ Z.succ (Z.log2 n) = 2 ^ 53 * 2 ^ sh).
  { rewrite <- Z.pow_add_r by lia. f_equal. subst sh. lia. }
  pose proof (Z.div_mod n (2 ^ sh) ltac:(lia)) as Hdm.
  pose proof (Z.mod_pos_bound n (2 ^ sh) HP) as Hr.
  fold q r in Hdm, Hr.
  assert (Hq : 2 ^ 52 <= q < 2 ^ 53).
  { rewrite Hlow in Hlo. rewrite Hup in Hhi. split.
    - apply Z.lt_succ_r. apply (Z.mul_lt_mono_pos_l (2 ^ sh)); [assumption |]. lia.
    - apply (Z.mul_lt_mono_pos_l (2 ^ sh)); [assumption |]. lia. }
  repeat split; try lia.
  unfold Slurm.round53.
  destruct (Z.leb_spec (Z.log2 n + 1) 53); [lia |].
  replace (Z.log2 n + 1 - 53) with sh by (subst sh; lia).
  rewrite Z.shiftr_div_pow2, Z.land_ones, !Z.shiftl_mul_pow2 by lia.
  rewrite Z.mul_1_l. reflexivity.
Qed.

Lemma round53_overflow (n : Z) :
  2 ^ 53 <= n ->
  (2 ^ 1054 <= Slurm.round53 n <-> 2 ^ 1054 - 2 ^ 1000 <= n).
Proof.
  intros Hn.
  destruct (round53_parts n Hn) as (Hsh & Hq & Hr & Hdm & Hround).
  set (sh := Z.log2 n - 52) in *.
  set (q := n / 2 ^ sh) in *. set (r := n mod 2 ^ sh) in *.
  assert (HP : 0 < 2 ^ sh) by (apply Z.pow_pos_nonneg; lia).
  set (q' := if (2 ^ (sh - 1) <? r) || ((r =? 2 ^ (sh - 1)) && Z.odd q)
             then q + 1 else q) in *.
  assert (Hq' : q <= q' <= q + 1) by (subst q'; destruct (_ || _); lia).
  rewrite Hround.
  destruct (Z.lt_trichotomy sh 1001) as [Hlt | [Heq | Hgt]].
  - (* below 2^1053: neither side *)
    assert (Hpow : 2 ^ sh * 2 <= 2 ^ 1001).
    { change (2 ^ 1001) with (2 ^ 1000 * 2).
      apply Z.mul_le_mono_nonneg_r; [lia |]. apply Z.pow_le_mono_r; lia. }
    assert (H53 : 2 ^ 53 * 2 ^ 1001 = 2 ^ 1054) by reflexivity.
    assert (H1000 : 2 ^ 1000 * 2 = 2 ^ 1001) by reflexivity.
    assert (Hres : q' * 2 ^ sh < 2 ^ 1054) by nia.
    assert (Hn' : n < 2 ^ 1054 - 2 ^ 1000) by nia.
    lia.
  - (* between 2^1053 and 2^1054 *)
    subst q'. rewrite Heq in *.
    assert (H53 : 2 ^ 53 * 2 ^ 1001 = 2 ^ 1054) by reflexivity.
    assert (Hhalf : 2 ^ (1001 - 1) = 2 ^ 1000) by reflexivity.
    assert (H1000 : 2 ^ 1000 * 2 = 2 ^ 1001) by reflexivity.
    rewrite Hhalf.
    destruct (Z.eq_dec q (2 ^ 53 - 1)) as [Hmax | Hnot].
    + assert (Hodd : Z.odd q = true) by (rewrite Hmax; reflexivity).
      rewrite Hodd, andb_true_r.
      destruct (Z.ltb_spec (2 ^ 1000) r); cbn [orb].
      * split; intros _; [| rewrite Hmax]; lia.
      * destruct (Z.eqb_spec r (2 ^ 1000)).
        -- split; intros _; [| rewrite Hmax]; lia.
        -- split; intros Hge; [rewrite Hmax in Hge |]; lia.
    + assert (Hres : forall x, q <= x <= q + 1 -> x * 2 ^ 1001 < 2 ^ 1054).
      { intros x Hx. rewrite <- H53.
        apply Z.mul_lt_mono_pos_r; [reflexivity | lia]. }
      assert (Hn' : n < 2 ^ 1054 - 2 ^ 1000) by lia.
      destruct (_ || _); specialize (Hres _ ltac:(lia)) || idtac;
        split; intros Hge; lia.
  - (* from 2^1054 on: both sides *)
    assert (Hpow : 2 ^ 1002 <= 2 ^ sh) by (apply Z.pow_le_mono_r; lia).
    assert (H52 : 2 ^ 52 * 2 ^ 1002 = 2 ^ 1054) by reflexivity.
    assert (Hpos1000 : 0 < 2 ^ 1000) by reflexivity.
    assert (Hres : 2 ^ 1054 <= q' * 2 ^ sh) by nia.
    assert (Hn' : 2 ^ 1054 <= n) by nia.
    lia.
Qed.

(** X3: [slurm_format_memory] raises [OverflowError] exactly for the byte counts
    from 2^1054 - 2^1000 on, where the quotient by 2^30 rounds to a float
    beyond the largest double; below that it returns a string. No other
    error is possible. *)
Theorem slurm_format_memory_overflows (n : Z) :
  (Slurm.slurm_format_memory n = err (builtin_error OverflowError) <->
   2 ^ 1054 - 2 ^ 1000 <= n) /\
  (n < 2 ^ 1054 - 2 ^ 1000 -> exists s, Slurm.slurm_format_memory n = ok s).
Proof.
  assert (Hbound : 2 ^ 53 < 2 ^ 1054 - 2 ^ 1000) by reflexivity.
  assert (H1054 : 2 ^ 53 < 2 ^ (1024 + 30)) by reflexivity.
  assert (Hsmall : n < 10 * 1024 ^ 3 ->
                   exists s, Slurm.slurm_format_memory n = ok s).
  { intros Hlt. unfold Slurm.slurm_format_memory.
    destruct (Z.leb_spec (10 * 1024 ^ 3) n); [lia |].
    assert (H30 : 10 * 1024 ^ 3 < 2 ^ 53) by reflexivity.
    destruct (Z.leb_spec (10 * 1024 ^ 2) n).
    - rewrite (ceil_truediv_exact n 20) by lia. eexists. reflexivity.
    - destruct (Z.leb_spec (10 * 1024) n).
      + rewrite (ceil_truediv_exact n 10) by lia. eexists. reflexivity.
      + eexists. reflexivity. }
  assert (Hlarge : 10 * 1024 ^ 3 <= n ->
                   if 2 ^ (1024 + 30) <=? Slurm.round53 n
                   then Slurm.slurm_format_memory n = err (builtin_error OverflowError)
                   else exists s, Slurm.slurm_format_memory n = ok s).
  { intros Hge. unfold Slurm.slurm_format_memory, Slurm.ceil_truediv_pow2.
    destruct (Z.leb_spec (10 * 1024 ^ 3) n); [| lia].
    destruct (2 ^ (1024 + 30) <=? Slurm.round53 n); cbn [res_bind ok err];
      [reflexivity | eexists; reflexivity]. }
  assert (Hover : 10 * 1024 ^ 3 <= n ->
                  (2 ^ (1024 + 30) <= Slurm.round53 n <-> 2 ^ 1054 - 2 ^ 1000 <= n)).
  { intros Hge. destruct (Z.le_gt_cases (2 ^ 53) n) as [Hbig | Hfit].
    - exact (round53_overflow n Hbig).
    - rewrite round53_exact by lia. lia. }
  destruct (Z.le_gt_cases (10 * 1024 ^ 3) n) as [Hge | Hlt].
  - specialize (Hlarge Hge). specialize (Hover Hge).
    destruct (Z.leb_spec (2 ^ (1024 + 30)) (Slurm.round53 n)) as [Hyes | Hno].
    + split; [split; [intros _; now apply Hover | intros _; exact Hlarge] |].
      intros Hlt. apply Hover in Hyes. lia.
    + destruct Hlarge as [s Hs]. split; [| intros _; now exists s].
      split; [rewrite Hs; discriminate |].
      intros Hn. apply Hover in Hn. lia.
  - destruct (Hsmall Hlt) as [s Hs]. split; [| intros _; now exists s].
    split; [rewrite Hs; discriminate |].
    assert (10 * 1024 ^ 3 < 2 ^ 53) by reflexivity. lia.
Qed.

Lemma slurm_format_memory_overflows_witness :
  2 ^ 40 < 2 ^ 1054 - 2 ^ 1000 /\
  (exists s, Slurm.slurm_format_memory (2 ^ 40) = ok s) /\
  2 ^ 1054 - 2 ^ 1000 <= 2 ^ 1054 /\
  Slurm.slurm_format_memory (2 ^ 1054) = err (builtin_error OverflowError).
Proof.
  assert (Hlt : 2 ^ 40 < 2 ^ 1054 - 2 ^ 1000) by reflexivity.
  assert (Hge : 2 ^ 1054 - 2 ^ 1000 <= 2 ^ 1054) by (vm_compute; discriminate).
  split; [exact Hlt |].
  split; [exact (proj2 (slurm_format_memory_overflows (2 ^ 40)) Hlt) |].
  split; [exact Hge |].
  exact (proj2 (proj1 (slurm_format_memory_overflows (2 ^ 1054))) Hge).
Defined.

(** ** Submitting and cancelling a job *)

Section Jobs.
Context `{Platform} `{JobQueue.Backend}.
Variable cfg : config.
Import LauncherSpec RequestSpec.

(** [do_as_user] starts one subprocess and leaves the attributes alone,
    however the subprocess ends; it ends with a value or an exception. *)
Lemma do_as_user_world (user action : string) (kwargs : list (string * pyval))
    (o : oracle) (w : world JobQueue.jq_state) :
  snd (run o (JobQueue.do_as_user cfg user action kwargs) w) =
    mk_world (attrs w)
      (append (trace w) (JobQueue.launcher_request cfg user action kwargs)) /\
  ended (fst (run o (JobQueue.do_as_user cfg user action kwargs) w)).
Proof.
  unfold JobQueue.do_as_user. cbn [run].
  destruct (o (trace w) _) as [e | p]; [now split |].
  destruct (negb (returncode p =? 0)); [now split |].
  destruct (json_loads (stdout p)) as [result |]; [| now split].
  rewrite run_lift. now destruct (_ <- _ ;; _)%res.
Qed.

Lemma start_job_unfolded (info : cluster_info) (worker_name : option string)
    (o : oracle) (w : world JobQueue.jq_state) :
  run o (JobQueue.start_job cfg info worker_name) w =
  match JobQueue.get_submit_cmd_env_stdin cfg info worker_name with
  | inl e => (Failed e, w)
  | inr (cmd, env, script) =>
      match start_kwargs cfg info worker_name cmd env script with
      | inl e => (Failed e, w)
      | inr kwargs =>
          match run o (JobQueue.do_as_user cfg (username info) "start" kwargs) w with
          | (Done (code, out, errout), w') =>
              if ne_zero code then
                (match JobQueue.submit_error code out errout with
                 | inl e => Failed e
                 | inr msg => Failed (raised Exception (VStr msg))
                 end, w')
              else
                (match JobQueue.parse_job_id out with
                 | inl e => Failed e
                 | inr job_id => Done job_id
                 end, w')
          | (Failed e, w') => (Failed e, w')
          | (_, w') => (Failed (builtin_error OSError), w')
          end
      end
  end.
Proof.
  unfold JobQueue.start_job, start_kwargs. rewrite run_bind, run_lift.
  destruct (JobQueue.get_submit_cmd_env_stdin cfg info worker_name)
    as [e | [[cmd env] script]]; [reflexivity |].
  rewrite run_bind, run_lift.
  destruct (name_given worker_name) as [wn |].
  - cbn [ok]. rewrite run_bind.
    pose proof (do_as_user_world (username info) "start"
      [("cmd", VList (map VStr cmd)); ("env", JobQueue.str_dict env);
       ("stdin", VStr script); ("staging_dir", VNone); ("files", VNone)] o w)
      as [_ Hend].
    destruct (run o (JobQueue.do_as_user cfg _ _ _) w) as [[[[code out] errout] | e | | | |] w'];
      try contradiction; [| reflexivity].
    destruct (ne_zero code); rewrite run_lift.
    + now destruct (JobQueue.submit_error code out errout).
    + reflexivity.
  - destruct (get_staging_directory cfg info) as [e | dir]; [reflexivity |].
    cbn [res_bind]. destruct (utf8_decode (tls_key info)) as [e | key];
      [reflexivity |].
    cbn [res_bind]. destruct (utf8_decode (tls_cert info)) as [e | cert];
      [reflexivity |].
    cbn [res_bind ok]. rewrite run_bind.
    pose proof (do_as_user_world (username info) "start"
      [("cmd", VList (map VStr cmd)); ("env", JobQueue.str_dict env);
       ("stdin", VStr script); ("staging_dir", VStr dir);
       ("files", VDict [("dask.pem", VStr key); ("dask.crt", VStr cert)])] o w)
      as [_ Hend].
    destruct (run o (JobQueue.do_as_user cfg _ _ _) w) as [[[[code out] errout] | e | | | |] w'];
      try contradiction; [| reflexivity].
    destruct (ne_zero code); rewrite run_lift.
    + now destruct (JobQueue.submit_error code out errout).
    + reflexivity.
Qed.


(** X8: When the submit command cannot be built, or the staging directory or a
    TLS file of a cluster job cannot be had, [start_job] raises that error
    without starting any subprocess. *)
Theorem start_job_fails_before_launch (info : cluster_info)
    (worker_name : option string) (o : oracle) (w : world JobQueue.jq_state)
    (e : exn) :
  (JobQueue.get_submit_cmd_env_stdin cfg info worker_name = inl e \/
   exists cmd env script,
     JobQueue.get_submit_cmd_env_stdin cfg info worker_name = ok (cmd, env, script) /\
     start_kwargs cfg info worker_name cmd env script = inl e) ->
  run o (JobQueue.start_job cfg info worker_name) w = (Failed e, w).
Proof.
  rewrite start_job_unfolded.
  intros [-> | (cmd & env & script & Hcmd & Hkw)]; [reflexivity |].
  rewrite Hcmd. cbv beta iota delta [ok]. now rewrite Hkw.
Qed.


(** X10: With the launcher's report on the cancel command at hand, [stop_job]
    returns exactly when the command's exit code is zero or its stderr
    contains "Job has finished". In every other case it raises [TypeError],
    not the "Failed to stop" exception it means to raise: the message has
    one placeholder for two arguments, and a stderr that is no container
    cannot be searched. *)
Theorem stop_job_outcome (info : cluster_info) (job_id : pyval)
    (worker_name : option string) (o : oracle) (w : world JobQueue.jq_state)
    (p : proc_out) (code out errout : pyval) (dir : string) :
  get_staging_directory cfg info = ok dir ->
  (forall req, o (trace w) req = inr p) ->
  answers p code out errout ->
  let r := fst (run o (JobQueue.stop_job cfg info job_id worker_name) w) in
  (r = Done tt <->
   ne_zero code = false \/
   JobQueue.py_contains "Job has finished" errout = ok true) /\
  (r <> Done tt -> r = Failed (builtin_error TypeError)).
Proof.
  intros Hdir Ho Hans r. subst r. unfold JobQueue.stop_job.
  destruct (JobQueue.get_stop_cmd_env cfg job_id) as [cmd env].
  rewrite run_bind, run_lift.
  assert (Hstaging : exists d,
             match name_given worker_name with
             | Some _ => ok VNone
             | None => (d <- get_staging_directory cfg info ;; ok (VStr d))%res
             end = inr d).
  { destruct (name_given worker_name); [now exists VNone |].
    rewrite Hdir. now exists (VStr dir). }
  destruct Hstaging as [d ->].
  rewrite run_bind, (do_as_user_answered cfg _ _ _ o w p code out errout)
    by (auto using Ho).
  destruct (ne_zero code).
  - rewrite run_bind, run_lift.
    destruct (JobQueue.py_contains "Job has finished" errout) as [e | [|]] eqn:Hin.
    + assert (He : e = builtin_error TypeError).
      { destruct errout; cbv [JobQueue.py_contains ok err] in Hin; congruence. }
      subst e. cbn [fst]. split; [| reflexivity].
      split; [discriminate | intros [Hf | Hf]; discriminate Hf].
    + cbn [negb run fst]. split; [| intros Hne; now contradiction Hne].
      split; [intros _; now right | reflexivity].
    + cbn [negb run fst]. split; [| reflexivity].
      split; [discriminate | intros [Hf | Hf]; discriminate Hf].
  - cbn [run fst]. split; [split; [intros _; now left | reflexivity] |].
    intros Hne. now contradiction Hne.
Qed.



End Jobs.

Lemma start_job_fails_before_launch_witness :
  let w := mk_world JobQueue.initial [] in
  let cfg := Example.with_account_qos "acct" "" in
  @JobQueue.get_submit_cmd_env_stdin Example.backend cfg Example.info None
    = inl (builtin_error AttributeError) /\
  run (Example.always Example.submitted)
    (@JobQueue.start_job Example.platform Example.backend cfg Example.info None) w
  = (Failed (builtin_error AttributeError), w).
Proof.
  split; [reflexivity |].
  apply (@start_job_fails_before_launch Example.platform Example.backend).
  left. reflexivity.
Defined.


Lemma stop_job_outcome_witness :
  let w := mk_world JobQueue.initial [] in
  let o := Example.always Example.gone in
  @get_staging_directory Example.platform Example.cfg Example.info
    = ok "/home/alice/.dask-gateway/c1" /\
  (forall req, o (trace w) req = inr Example.gone) /\
  @LauncherSpec.answers Example.platform Example.gone (VInt 1) (VStr "")
    (VStr "scancel: Job has finished") /\
  fst (run o (@JobQueue.stop_job Example.platform Example.backend Example.cfg
                Example.info (VStr "42") None) w) = Done tt.
Proof.
  assert (Hans : @LauncherSpec.answers Example.platform Example.gone (VInt 1)
                   (VStr "") (VStr "scancel: Job has finished")).
  { split; [reflexivity |].
    exists (Example.reply_value 1 "" "scancel: Job has finished"), (VBool true).
    repeat split; reflexivity. }
  split; [reflexivity |]. split; [reflexivity |]. split; [exact Hans |].
  apply (proj1 (@stop_job_outcome Example.platform Example.backend Example.cfg
                  Example.info (VStr "42") None (Example.always Example.gone)
                  (mk_world JobQueue.initial []) Example.gone (VInt 1)
                  (VStr "") (VStr "scancel: Job has finished")
                  "/home/alice/.dask-gateway/c1" eq_refl (fun _ => eq_refl)
                  Hans)).
  right. reflexivity.
Defined.



(** ** The polling task and the slots *)

Section Slots.
Import JobQueue Tracking.
Context `{Backend}.
Variable cfg : config.

(** X13: The two ways a polling round ends early. With an empty map the task
    starts no status command and goes to sleep. With an output the parser
    rejects, the round ends with the parser's exception: no slot gets a
    result and the map stays as it is. The return code and the stderr of
    the status command play no part in what follows. *)
Theorem polling_round_ends_early (s : jq_state) :
  (jobs_to_track s = [] ->
   step (job_state_tracker_body cfg) s = (Sleeping (Ret tt), s)) /\
  (jobs_to_track s <> [] ->
   exists k,
     step (job_state_tracker_body cfg) s = (OnProc (status_request cfg s) k, s) /\
     (forall p s1 e,
        reachable s1 -> parse_job_states (stdout p) = inl e ->
        step (k p) s1 = (Failed e, s1)) /\
     (forall p p' s1, stdout p = stdout p' -> step (k p) s1 = step (k p') s1)).
Proof.
  unfold job_state_tracker_body. cbn [bind step]. split.
  - now intros ->.
  - intros Hjobs.
    destruct (jobs_to_track s) as [| entry rest] eqn:Hmap; [contradiction |].
    cbn [bind step]. eexists. split; [reflexivity |]. split.
    + intros p s1 e Hreach Hparse. apply reachable_wf in Hreach.
      cbn beta. rewrite step_bind, step_resolve_verdicts, Hparse by assumption.
      reflexivity.
    + intros p p' s1 Hout. cbn beta. now rewrite Hout.
Qed.

(** X14: A result is given once: whatever happens next to a manager in a
    reachable state (a call of [is_job_running], a polling round, the
    collection of an entry), every future that has a result keeps it. No
    step takes a future back, and there is never more than one polling
    task. *)
Theorem verdicts_are_final (s s' : jq_state) :
  reachable s -> transition s s' ->
  (forall f v, fut_result s f = Some v -> fut_result s' f = Some v) /\
  (next_fut s <= next_fut s')%nat /\
  (background_tasks s <= background_tasks s' <= 1)%nat.
Proof.
  intros Hreach Htrans. apply reachable_wf in Hreach as Hwf.
  pose proof (transition_wf s s' Hwf Htrans) as Hwf'.
  assert (Hone : forall t, wf t -> (background_tasks t <= 1)%nat).
  { intros t Ht. pose proof (wf_tracker t Ht) as Htr.
    destruct (job_tracker t); [lia | destruct Htr; lia]. }
  pose proof (Hone s' Hwf') as Hle'.
  unfold fut_result, jq_futures.
  destruct Htrans as [job_id s | out s s' r Htr Hstep | job_id s].
  - pose proof (wf_tracker s Hwf) as Htr. unfold is_job_running in *.
    destruct (job_tracker s) eqn:Ht;
      [destruct (dict_get (jobs_to_track s) job_id) |]; cbn in *;
      repeat split; auto; try lia.
  - rewrite step_resolve_verdicts in Hstep by assumption.
    destruct (parse_job_states out) as [e | [running failed]];
      injection Hstep as _ <-; [repeat split; auto; lia |].
    destruct (resolved_frame false failed (resolved true running s))
      as (Hn2 & _ & Hb2).
    destruct (resolved_frame true running s) as (Hn1 & _ & Hb1).
    rewrite Hn2, Hn1. rewrite Hb2, Hb1 in *.
    split; [| split; [lia | split; [lia | exact Hle']]].
    intros f v Hres. apply resolved_keeps; [now apply resolved_wf |].
    now apply resolved_keeps.
  - cbn in *. repeat split; auto; lia.
Qed.

Lemma is_job_running_stored (job_id : string) (s : jq_state) :
  dict_get (jobs_to_track (snd (is_job_running job_id s))) job_id
    = Some (fst (is_job_running job_id s)) /\
  job_tracker (snd (is_job_running job_id s)) <> None.
Proof.
  unfold is_job_running.
  destruct (job_tracker s) eqn:Ht; cbn [jobs_to_track dict_get].
  - destruct (dict_get (jobs_to_track s) job_id) eqn:Hget; cbn.
    + split; [assumption | congruence].
    + split; [apply dict_set_same | congruence].
  - cbn. rewrite String.eqb_refl. split; [reflexivity | discriminate].
Qed.

(** X15: Two job ids never share a slot: after [is_job_running] for one id and
    then for another, in a reachable state, the two slots differ, both are
    in the map under their ids, and the map lists every id once. *)
Theorem distinct_jobs_distinct_slots (s : jq_state) (id id' : string) :
  reachable s -> id <> id' ->
  let first := is_job_running id s in
  let second := is_job_running id' (snd first) in
  fst first <> fst second /\
  dict_get (jobs_to_track (snd second)) id = Some (fst first) /\
  dict_get (jobs_to_track (snd second)) id' = Some (fst second) /\
  NoDup (dict_keys (jobs_to_track (snd second))).
Proof.
  intros Hreach Hne first second. apply reachable_wf in Hreach as Hwf.
  pose proof (is_job_running_wf id s Hwf) as Hwf1. fold first in Hwf1.
  pose proof (is_job_running_wf id' (snd first) Hwf1) as Hwf2.
  fold second in Hwf2.
  destruct (is_job_running_stored id s) as [Hst1 Htr1].
  fold first in Hst1, Htr1.
  destruct (is_job_running_stored id' (snd first)) as [Hst2 _].
  fold second in Hst2.
  assert (Hkept : dict_get (jobs_to_track (snd second)) id = Some (fst first)).
  { subst second. unfold is_job_running at 1.
    destruct (job_tracker (snd first)); [| contradiction].
    destruct (dict_get (jobs_to_track (snd first)) id'); cbn; [assumption |].
    rewrite dict_set_other by assumption. assumption. }
  split; [| split; [exact Hkept | split; [exact Hst2 | apply (wf_keys _ Hwf2)]]].
  intros Heq. apply Hne.
  apply (wf_distinct _ Hwf2 id id' (fst first)); [assumption |].
  now rewrite Heq.
Qed.

End Slots.

Lemma polling_round_ends_early_witness :
  let s := snd (JobQueue.is_job_running "1" JobQueue.initial) in
  let p := {| returncode := 0; stdout := "1 R" ++ Text.nl ++ "oops"; stderr := "" |} in
  (JobQueue.jobs_to_track JobQueue.initial = [] /\
   step (@JobQueue.job_state_tracker_body Example.backend Example.cfg)
     JobQueue.initial = (Sleeping (Ret tt), JobQueue.initial)) /\
  (JobQueue.jobs_to_track s <> [] /\
   @Tracking.reachable Example.backend s /\
   @JobQueue.parse_job_states Example.backend (stdout p)
     = inl (builtin_error ValueError) /\
   exists k,
     step (@JobQueue.job_state_tracker_body Example.backend Example.cfg) s
       = (OnProc (@JobQueue.status_request Example.backend Example.cfg s) k, s) /\
     step (k p) s = (Failed (builtin_error ValueError), s)).
Proof.
  assert (Hjobs : JobQueue.jobs_to_track
                    (snd (JobQueue.is_job_running "1" JobQueue.initial)) <> [])
    by discriminate.
  assert (Hreach : @Tracking.reachable Example.backend
                     (snd (JobQueue.is_job_running "1" JobQueue.initial))).
  { eapply Tracking.r_next; [apply Tracking.r_initial | apply Tracking.t_call]. }
  split.
  - split; [reflexivity |].
    exact (proj1 (@polling_round_ends_early Example.backend Example.cfg
                    JobQueue.initial) eq_refl).
  - destruct (proj2 (@polling_round_ends_early Example.backend Example.cfg _)
                Hjobs) as (k & Hstep & Hfail & _).
    split; [exact Hjobs |]. split; [exact Hreach |]. split; [reflexivity |].
    exists k. split; [exact Hstep |].
    exact (Hfail {| returncode := 0; stdout := "1 R" ++ Text.nl ++ "oops";
                    stderr := "" |} _ _ Hreach eq_refl).
Defined.

Lemma verdicts_are_final_witness :
  let s := snd (JobQueue.is_job_running "1" JobQueue.initial) in
  let s1 := snd (step (@JobQueue.resolve_verdicts Example.backend "1 R") s) in
  let s2 := snd (JobQueue.is_job_running "1" s1) in
  @Tracking.reachable Example.backend s1 /\
  @Tracking.transition Example.backend s1 s2 /\
  fut_result s1 0%nat = Some true /\
  fut_result s2 0%nat = Some true.
Proof.
  assert (Hreach : @Tracking.reachable Example.backend
            (snd (step (@JobQueue.resolve_verdicts Example.backend "1 R")
                    (snd (JobQueue.is_job_running "1" JobQueue.initial))))).
  { apply (@Tracking.r_next Example.backend
             (snd (JobQueue.is_job_running "1" JobQueue.initial))).
    - apply (@Tracking.r_next Example.backend JobQueue.initial);
        [apply Tracking.r_initial | apply (Tracking.t_call "1")].
    - apply (@Tracking.t_poll Example.backend "1 R" _ _ (Done tt));
        [discriminate | reflexivity]. }
  assert (Htrans : @Tracking.transition Example.backend
            (snd (step (@JobQueue.resolve_verdicts Example.backend "1 R")
                    (snd (JobQueue.is_job_running "1" JobQueue.initial))))
            (snd (JobQueue.is_job_running "1"
                    (snd (step (@JobQueue.resolve_verdicts Example.backend "1 R")
                            (snd (JobQueue.is_job_running "1" JobQueue.initial)))))))
    by apply Tracking.t_call.
  split; [exact Hreach |]. split; [exact Htrans |]. split; [reflexivity |].
  exact (proj1 (@verdicts_are_final Example.backend _ _ Hreach Htrans)
           0%nat true eq_refl).
Defined.

Lemma distinct_jobs_distinct_slots_witness :
  @Tracking.reachable Example.backend JobQueue.initial /\ "1" <> "2" /\
  fst (JobQueue.is_job_running "1" JobQueue.initial) <>
  fst (JobQueue.is_job_running "2"
         (snd (JobQueue.is_job_running "1" JobQueue.initial))).
Proof.
  assert (Hne : "1" <> "2") by discriminate.
  split; [apply Tracking.r_initial |]. split; [exact Hne |].
  exact (proj1 (@distinct_jobs_distinct_slots Example.backend JobQueue.initial
                  "1" "2" (@Tracking.r_initial Example.backend) Hne)).
Defined.

(** ** A Slurm account and the start of a cluster *)

(** X16: With a non-empty account the Slurm manager cannot start anything: the
    first stage of [start_cluster] and of [start_worker] raises
    [AttributeError] before any snapshot is yielded and before any
    subprocess is started. *)
Theorem slurm_account_blocks_start `{Platform} (cfg : config)
    (info : cluster_info) (o : oracle) (w : world JobQueue.jq_state) :
  account cfg <> "" ->
  run o (JobQueue.start_cluster cfg info) w
    = (Failed (builtin_error AttributeError), w) /\
  forall name cs,
    run o (JobQueue.start_worker cfg name info cs) w
      = (Failed (builtin_error AttributeError), w).
Proof.
  intros Hacc. unfold JobQueue.start_cluster, JobQueue.start_worker.
  split; [| intros name cs]; rewrite run_bind, start_job_unfolded;
    cbn [JobQueue.get_submit_cmd_env_stdin SlurmClusterManager];
    now rewrite account_flag_raises.
Qed.

Lemma slurm_account_blocks_start_witness :
  let w := mk_world JobQueue.initial [] in
  account (Example.with_account_qos "acct" "") <> "" /\
  run (Example.always Example.submitted)
    (@JobQueue.start_cluster Example.platform Example.backend
       (Example.with_account_qos "acct" "") Example.info) w
  = (Failed (builtin_error AttributeError), w).
Proof.
  assert (Hacc : account (Example.with_account_qos "acct" "") <> "")
    by discriminate.
  split; [exact Hacc |].
  exact (proj1 (@slurm_account_blocks_start Example.platform
                  (Example.with_account_qos "acct" "") Example.info
                  (Example.always Example.submitted)
                  (mk_world JobQueue.initial []) Hacc)).
Defined.

(** ** The test managers and the loops of the tests *)

(** X17: Where [FailWorkerStartClusterManager.start_worker] ends when the test
    loop consumes it: at stage 0 it raises before any snapshot and the
    worker's state is as it was; at stage 1 or 2 it raises after the
    snapshots [{i: 0}] or [{i: 0}], [{i: 1}], and the state kept is the last
    of them; for any other stage it never raises and ends after three
    snapshots with [{i: 2}]. [stop_worker] stores the state it is given. *)
Theorem fail_worker_start_stages (o : oracle) (name : string)
    (info : cluster_info) (cs kept : state) (k : Z) (previous : option state)
    (tr : list request) :
  let w := mk_world (FailWorkerStart.mk_attrs k previous) tr in
  let oh_no := raised ValueError (VStr "Oh No") in
  Utils.consume o (FailWorkerStart.start_worker name info cs) kept w =
    (if k =? 0 then (Failed oh_no, kept, w)
     else if k =? 1 then (Failed oh_no, [("i", VInt 0)], w)
     else if k =? 2 then (Failed oh_no, [("i", VInt 1)], w)
     else (Done tt, [("i", VInt 2)], w)) /\
  forall st,
    run o (FailWorkerStart.stop_worker name st info cs) w =
    (Done tt, mk_world (FailWorkerStart.mk_attrs k (Some st)) tr).
Proof.
  intros w oh_no. split; [| reflexivity].
  unfold FailWorkerStart.start_worker. subst w.
  cbn [FailWorkerStart.stages Utils.consume attrs FailWorkerStart.fail_stage].
  rewrite (Z.eqb_sym 0 k). destruct (k =? 0); [reflexivity |].
  cbn [Utils.consume attrs FailWorkerStart.fail_stage].
  rewrite (Z.eqb_sym 1 k). destruct (k =? 1); [reflexivity |].
  cbn [Utils.consume attrs FailWorkerStart.fail_stage].
  rewrite (Z.eqb_sym 2 k). destruct (k =? 2); reflexivity.
Qed.

(** X18: [FailStartClusterManager.start_cluster] with a stage other than 0, 1
    and 2 never fails: consumed by the test loop it ends after its three
    snapshots, and the state kept is [{i: 2}]. *)
Theorem fail_start_out_of_range_completes (o : oracle) (info : cluster_info)
    (kept : state) (k : Z) (previous : option state) (tr : list request) :
  k < 0 \/ 2 < k ->
  let w := mk_world (FailStart.mk_attrs k previous) tr in
  Utils.consume o (FailStart.start_cluster info) kept w =
  (Done tt, [("i", VInt 2)], w).
Proof.
  intros Hk w. unfold FailStart.start_cluster. subst w.
  cbn [FailStart.stages Utils.consume attrs FailStart.fail_stage].
  destruct (Z.eqb_spec 0 k); [lia |].
  cbn [Utils.consume attrs FailStart.fail_stage].
  destruct (Z.eqb_spec 1 k); [lia |].
  cbn [Utils.consume attrs FailStart.fail_stage].
  destruct (Z.eqb_spec 2 k); [lia | reflexivity].
Qed.

Lemma fail_start_out_of_range_completes_witness :
  let w := mk_world (FailStart.mk_attrs 3 None) [] in
  (3 < 0 \/ 2 < 3) /\
  Utils.consume (Example.always Example.gone)
    (FailStart.start_cluster Example.info) [] w
  = (Done tt, [("i", VInt 2)], w).
Proof.
  assert (Hk : 3 < 0 \/ 2 < 3) by (right; reflexivity).
  split; [exact Hk |].
  exact (fail_start_out_of_range_completes (Example.always Example.gone)
           Example.info [] 3 None [] Hk).
Defined.

Lemma wait_stopped_spec (running : nat -> bool) (tries : nat) :
  forall i,
    let r := Utils.wait_stopped running i tries in
    (i <= snd r <= i + tries)%nat /\
    (forall j, (i <= j < snd r)%nat -> running j = true) /\
    (fst r = true -> running (snd r) = false /\ (snd r < i + tries)%nat) /\
    (fst r = false -> snd r = (i + tries)%nat).
Proof.
  induction tries as [| tries IH]; intros i; cbn [Utils.wait_stopped].
  - cbn. repeat split; try discriminate; intros; lia.
  - destruct (running i) eqn:Hi; cbn [negb].
    + specialize (IH (S i)). cbn zeta in IH.
      destruct IH as (Hrange & Hbefore & Htrue & Hfalse).
      split; [lia |]. split; [| split].
      * intros j Hj. destruct (Nat.eq_dec j i) as [-> | Hne]; [assumption |].
        apply Hbefore. lia.
      * intros Hr. destruct (Htrue Hr). split; [assumption | lia].
      * intros Hr. rewrite (Hfalse Hr). lia.
    + cbn. repeat split; try discriminate; try assumption; intros; lia.
Qed.

(** X19: [cluster_is_stopped] answers true exactly when one of the first 120
    checks finds the cluster not running. It sleeps once after every check
    that found it running, stops at the first check that does not, and
    gives up with false after 120 sleeps. *)
Theorem cluster_is_stopped_within_120 (running : nat -> bool) :
  let r := Utils.cluster_is_stopped running in
  (fst r = true <-> exists i, (i < 120)%nat /\ running i = false) /\
  (snd r <= 120)%nat /\
  (forall j, (j < snd r)%nat -> running j = true) /\
  (fst r = true -> running (snd r) = false) /\
  (fst r = false -> snd r = 120%nat).
Proof.
  intros r. subst r. unfold Utils.cluster_is_stopped.
  pose proof (wait_stopped_spec running 120 0) as Hspec. cbn zeta in Hspec.
  destruct Hspec as (Hrange & Hbefore & Htrue & Hfalse).
  split; [| split; [lia | split; [| split]]].
  - split.
    + intros Hr. destruct (Htrue Hr) as [Hstop Hlt]. eexists. split; [| exact Hstop].
      lia.
    + intros [i [Hi Hstop]].
      destruct (fst (Utils.wait_stopped running 0 120)) eqn:Hr; [reflexivity |].
      specialize (Hfalse eq_refl). rewrite (Hbefore i) in Hstop by lia.
      discriminate.
  - intros j Hj. apply Hbefore. lia.
  - intros Hr. now destruct (Htrue Hr).
  - intros Hr. rewrite (Hfalse Hr). lia.
Qed.

Lemma cluster_is_stopped_within_120_witness :
  let running := fun i => (i <? 3)%nat in
  (exists i, (i < 120)%nat /\ running i = false) /\
  fst (Utils.cluster_is_stopped running) = true.
Proof.
  assert (Hex : exists i, (i < 120)%nat /\ (i <? 3)%nat = false).
  { exists 3%nat. split; [lia | reflexivity]. }
  split; [exact Hex |].
  exact (proj2 (proj1 (cluster_is_stopped_within_120
                         (fun i => (i <? 3)%nat))) Hex).
Defined.

(** ** The mock gateway of the tests *)

Section Gateway.
Variable cluster : Type.
Variable api_token : cluster -> string.

Lemma split_first_space_joins (s a b : string) :
  Utils.split_first_space s = Some (a, b) -> s = a ++ " " ++ b.
Proof.
  revert a b. induction s as [| c s IH]; intros a b; cbn; [discriminate |].
  destruct (Ascii.eqb_spec c " ") as [-> | Hc].
  - now intros [= <- <-].
  - destruct (Utils.split_first_space s) as [[a' b'] |]; [| discriminate].
    intros [= <- <-]. cbn. f_equal. now apply IH.
Qed.

(** X20: [assert_token_matches] lets a request through exactly when the cluster
    is known and the Authorization header is the word [token], one space and
    the cluster's API token. For an unknown cluster it raises [KeyError]
    whatever the header. *)
Theorem token_accepted_exactly (self : Utils.clusters cluster)
    (auth_header : option string) (cluster_name : string) :
  (Utils.assert_token_matches cluster api_token self auth_header cluster_name
     = inr tt <->
   exists c,
     dict_get self cluster_name = Some c /\
     auth_header = Some ("token " ++ api_token c)) /\
  (dict_get self cluster_name = None ->
   Utils.assert_token_matches cluster api_token self auth_header cluster_name
     = inl (Utils.Raised (raised KeyError (VStr cluster_name)))).
Proof.
  unfold Utils.assert_token_matches, Utils.get_cluster. split.
  - split.
    + destruct (dict_get self cluster_name) as [c |]; [| discriminate].
      cbn [ok]. destruct auth_header as [header |]; [| discriminate].
      destruct (String.eqb header ""); [discriminate |].
      destruct (Utils.split_first_space header) as [[auth_type auth_key] |] eqn:Hsplit;
        [| discriminate].
      destruct (String.eqb_spec auth_type "token") as [-> | _]; [| discriminate].
      destruct (String.eqb_spec auth_key (api_token c)) as [-> | _];
        [| discriminate].
      intros _. exists c. split; [reflexivity |].
      now rewrite (split_first_space_joins _ _ _ Hsplit).
    + intros [c [-> ->]]. cbn. now rewrite String.eqb_refl.
  - now intros ->.
Qed.

Lemma dict_set_keys {V} (d : list (string * V)) (k : string) (v : V) :
  dict_keys (dict_set d k v) =
  match dict_get d k with
  | Some _ => dict_keys d
  | None => (dict_keys d ++ [k])%list
  end.
Proof.
  unfold dict_keys. induction d as [| [k0 v0] d IH]; cbn; [reflexivity |].
  destruct (String.eqb_spec k0 k) as [-> | Hne]; cbn; [reflexivity |].
  rewrite IH. now destruct (dict_get d k).
Qed.

(** X21: The mock gateway keeps its clusters as a dict should: a cluster just
    registered is found under its name and leaves the others as they were;
    once marked stopped it is gone, looking it up or stopping it again
    raises [KeyError], and the others are still as they were. *)
Theorem mock_gateway_registry (self : Utils.clusters cluster)
    (cluster_name : string) (c : cluster) :
  NoDup (dict_keys self) ->
  let registered := snd (Utils.new_cluster cluster self cluster_name c) in
  Utils.get_cluster cluster registered cluster_name = ok c /\
  (forall other,
     other <> cluster_name ->
     Utils.get_cluster cluster registered other
       = Utils.get_cluster cluster self other) /\
  exists stopped,
    Utils.mark_cluster_stopped cluster registered cluster_name = ok stopped /\
    Utils.get_cluster cluster stopped cluster_name
      = err (raised KeyError (VStr cluster_name)) /\
    Utils.mark_cluster_stopped cluster stopped cluster_name
      = err (raised KeyError (VStr cluster_name)) /\
    (forall other,
       other <> cluster_name ->
       Utils.get_cluster cluster stopped other
         = Utils.get_cluster cluster self other).
Proof.
  intros Hnd registered. subst registered.
  unfold Utils.new_cluster, Utils.get_cluster, Utils.mark_cluster_stopped.
  cbn [snd]. rewrite dict_set_same.
  assert (Hnd' : NoDup (dict_keys (dict_set self cluster_name c))).
  { rewrite dict_set_keys.
    destruct (dict_get self cluster_name) eqn:Hget; [assumption |].
    apply NoDup_app; [assumption | repeat constructor; intros [] |].
    intros x Hin [<- | []]. now apply dict_get_none in Hget. }
  split; [reflexivity |]. split.
  - intros other Hother. now rewrite dict_set_other.
  - eexists. split; [reflexivity |].
    rewrite dict_remove_same by assumption. split; [reflexivity |].
    split; [reflexivity |].
    intros other Hother. now rewrite dict_remove_other, dict_set_other.
Qed.

End Gateway.

Lemma token_accepted_exactly_witness :
  let self := [("c1", "secret")] in
  (exists c, dict_get self "c1" = Some c /\
             Some "token secret" = Some ("token " ++ c)) /\
  Utils.assert_token_matches string (fun c => c) self (Some "token secret") "c1"
    = inr tt /\
  Utils.assert_token_matches string (fun c => c) self (Some "token  secret") "c1"
    = inl Utils.AssertionFailed.
Proof.
  assert (Hex : exists c, dict_get [("c1", "secret")] "c1" = Some c /\
                          Some "token secret" = Some ("token " ++ c)).
  { exists "secret". split; reflexivity. }
  split; [exact Hex |].
  split; [| reflexivity].
  exact (proj2 (proj1 (token_accepted_exactly string (fun c => c)
                         [("c1", "secret")] (Some "token secret") "c1")) Hex).
Defined.

Lemma mock_gateway_registry_witness :
  let self := [("c1", "one")] in
  NoDup (dict_keys self) /\
  Utils.get_cluster string (snd (Utils.new_cluster string self "c2" "two")) "c2"
    = ok "two" /\
  Utils.get_cluster string (snd (Utils.new_cluster string self "c2" "two")) "c1"
    = ok "one".
Proof.
  assert (Hnd : NoDup (dict_keys [("c1", "one")])).
  { repeat constructor. intros []. }
  assert (Hne : "c1" <> "c2") by discriminate.
  pose proof (mock_gateway_registry string [("c1", "one")] "c2" "two" Hnd)
    as (Hfound & Hothers & _).
  split; [exact Hnd |]. split; [exact Hfound |].
  exact (Hothers "c1" Hne).
Defined.

(** ** A staged start, from the submission to the verdict *)

Section StagedStart.
Context `{Platform} `{JobQueue.Backend}.
Variable cfg : config.
Import LauncherSpec RequestSpec VerdictSpec.



End StagedStart.

